(** * Insulin pump education app: the data generator and the advisor

    A shallow embedding of [insulin_pump_app.py]: the synthetic-cohort
    generator [create_patients] and the recommendation rule
    [recommend_adjustment], with the data classes [MonthlyData] and
    [Patient] they work on.

    Python floats are IEEE 754 binary64 numbers, modelled by Rocq's
    primitive floats.  The two pseudo-random generators the program
    draws from (Python's [random] module and NumPy's legacy global
    [RandomState]) are libraries outside the repository: they appear as
    interfaces with the part of their documented contract the proofs
    rely on, and one small concrete implementation of the interfaces is
    given so that every statement can be run on real inputs.

    The rest of the module follows the claims: [_format_month], the
    accessors of [Patient], and [main], whose Streamlit widgets are
    inputs of a run and whose display calls are recorded in order. *)

From Stdlib Require Import ZArith String Floats.
From stdpp Require Import gmap strings list pretty.

Local Open Scope string_scope.
Local Open Scope list_scope.
Local Open Scope Z_scope.

(** ** Python floats

    Binary64 numbers, with Python's comparison operators. *)

Module PyFloat.

Definition not_nan (x : float) : Prop := is_nan x = false.

(** Python's [a > b] and [a < b] on floats. *)
Definition gt (a b : float) : bool := (b <? a)%float.
Definition lt (a b : float) : bool := (a <? b)%float.

(** [lo <= x <= hi], as a boolean. *)
Definition within (lo hi x : float) : bool :=
  ((lo <=? x) && (x <=? hi))%float.

End PyFloat.

(** ** NumPy's element-wise clipping

    [np.clip(a, a_min, a_max)] is documented as equivalent to
    [np.minimum(a_max, np.maximum(a, a_min))]; NumPy's [maximum] and
    [minimum] return their first argument when it wins the comparison
    or is a NaN, and the second one otherwise, so a NaN propagates. *)

Module Np.

Definition maximum (x1 x2 : float) : float :=
  if (x2 <=? x1)%float || is_nan x1 then x1 else x2.

Definition minimum (x1 x2 : float) : float :=
  if (x1 <=? x2)%float || is_nan x1 then x1 else x2.

Definition clip_one (a_min a_max a : float) : float :=
  minimum a_max (maximum a a_min).

(** On a sequence, as [np.clip(values, a_min, a_max).tolist()]. *)
Definition clip (a : list float) (a_min a_max : float) : list float :=
  map (clip_one a_min a_max) a.

End Np.

(** ** Python effects: exceptions and mutable state *)

Inductive exn : Type :=
  | IndexError            (* a sequence index out of range, or a choice from an empty sequence *)
  | KeyError (key : Z).   (* a dict has no such key *)

Inductive result (A : Type) : Type :=
  | Ok (a : A)
  | Raise (e : exn).
Arguments Ok {A} a.
Arguments Raise {A} e.

(** A computation over a mutable state [St]: it returns a value or raises,
    and leaves a state behind in both cases. *)
Definition M (St A : Type) : Type := St -> result A * St.

Definition ret {St A} (a : A) : M St A := fun s => (Ok a, s).

Definition raise {St A} (e : exn) : M St A := fun s => (Raise e, s).

Definition bind {St A B} (c : M St A) (k : A -> M St B) : M St B :=
  fun s =>
    match c s with
    | (Ok a, s') => k a s'
    | (Raise e, s') => (Raise e, s')
    end.

Definition get {St} : M St St := fun s => (Ok s, s).

Definition lift {St A} (r : result A) : M St A := fun s => (r, s).

Declare Scope py_scope.
Delimit Scope py_scope with py.
Notation "x <- c1 ;; c2" := (bind c1 (fun x => c2))
  (at level 100, c1 at next level, right associativity) : py_scope.
Notation "c1 ;; c2" := (bind c1 (fun _ => c2))
  (at level 100, right associativity) : py_scope.
Local Open Scope py_scope.

(** [for x in xs: acc = body(x, acc)]. *)
Fixpoint for_each {St A B} (xs : list A) (body : A -> B -> M St B) (acc : B) : M St B :=
  match xs with
  | [] => ret acc
  | x :: rest => acc' <- body x acc ;; for_each rest body acc'
  end.

(** [range(n)]: empty when [n] is not positive. *)
Definition py_range (n : Z) : list Z := seqZ 0 n.

(** [xs[i]] on a list: a negative index counts from the end, and an index
    outside the list raises [IndexError]. *)
Definition list_getitem {A} (xs : list A) (i : Z) : result A :=
  let n := Z.of_nat (length xs) in
  let j := if i <? 0 then i + n else i in
  if (j <? 0) || (n <=? j) then Raise IndexError
  else match xs !! Z.to_nat j with
       | Some x => Ok x
       | None => Raise IndexError
       end.

(** [d[k]] on a dict with integer keys: a missing key raises [KeyError]. *)
Definition dict_getitem {A} (d : gmap Z A) (k : Z) : result A :=
  match d !! k with
  | Some v => Ok v
  | None => Raise (KeyError k)
  end.

(** [x in xs] for a list of integers. *)
Definition py_in (x : Z) (xs : list Z) : bool := existsb (Z.eqb x) xs.

(** ** The library interfaces

    Python's [random] module: [seed(a)] replaces the generator state by
    one computed from [a] alone; every choice goes through
    [_randbelow(n)], which returns an integer below [n]. *)

Class PyRandom : Type := {
  py_state : Type;
  py_seed : Z -> py_state;
  py_randbelow : nat -> py_state -> nat * py_state;
  py_randbelow_lt : forall (n : nat) (s : py_state),
      (0 < n)%nat -> (fst (py_randbelow n s) < n)%nat
}.

(** A scale [np.random.normal] can take without overflow: not negative,
    and small enough for [scale * g] to stay finite. *)
Definition np_scale_ok (scale : float) : bool :=
  ((0 <=? scale) && (scale <=? 0x1p+1000))%float.

(** The bounds [np.random.uniform] accepts: NumPy refuses a range
    [high - low] that is not finite. *)
Definition np_bounds_ok (low high : float) : bool :=
  (is_finite (high - low) && (low <=? high))%float.

(** NumPy: [np.random.seed(a)] replaces the global generator state by one
    computed from [a] alone; [normal(loc, scale)] is [loc + scale * g]
    for a standard normal draw [g], so it is a proper number when [loc]
    is; [uniform(low, high)] lies between its bounds; [np.mean] is the
    library's reduction of a sequence of floats. *)
Class NumPy : Type := {
  np_state : Type;
  np_seed : Z -> np_state;
  np_normal : float -> float -> np_state -> float * np_state;
  np_uniform : float -> float -> np_state -> float * np_state;
  np_mean : list float -> float;
  np_normal_not_nan : forall (loc scale : float) (s : np_state),
      PyFloat.not_nan loc -> np_scale_ok scale = true ->
      PyFloat.not_nan (fst (np_normal loc scale s));
  np_uniform_within : forall (low high : float) (s : np_state),
      np_bounds_ok low high = true ->
      PyFloat.within low high (fst (np_uniform low high s)) = true
}.

(** ** Data model *)

Record MonthlyData : Type := {
  bg_values : list float;
  basal_units : float;
  bolus_units : float;
  notes : string
}.

Record Patient : Type := {
  id : Z;
  name : string;
  pump_type : string;
  months : gmap Z MonthlyData
}.

(** [patient.months[m_idx] = md] *)
Definition months_setitem (patient : Patient) (m_idx : Z) (md : MonthlyData) : Patient :=
  {| id := id patient; name := name patient; pump_type := pump_type patient;
     months := <[m_idx := md]> (months patient) |}.

(** ** The program *)

Section Program.
Context {rnd : PyRandom} {np : NumPy}.

(** The interpreter state the generator works on: the global state of
    the [random] module and the one of [np.random]. *)
Record World : Type := {
  random_state : py_state;
  np_random_state : np_state
}.

(** *** Library calls, as effects on the interpreter state *)

Definition random_seed (a : Z) : M World unit :=
  fun w => (Ok tt, {| random_state := py_seed a;
                      np_random_state := np_random_state w |}).

Definition np_random_seed (a : Z) : M World unit :=
  fun w => (Ok tt, {| random_state := random_state w;
                      np_random_state := np_seed a |}).

(** [random.choice(seq)]: [seq[_randbelow(len(seq))]], and [IndexError]
    on an empty sequence. *)
Definition random_choice {A} (seq : list A) : M World A :=
  fun w =>
    match seq with
    | [] => (Raise IndexError, w)
    | _ :: _ =>
      let '(i, s) := py_randbelow (length seq) (random_state w) in
      (list_getitem seq (Z.of_nat i),
       {| random_state := s; np_random_state := np_random_state w |})
    end.

Definition np_random_normal (loc scale : float) : M World float :=
  fun w =>
    let '(x, s) := np_normal loc scale (np_random_state w) in
    (Ok x, {| random_state := random_state w; np_random_state := s |}).

(** [np.random.normal(loc, scale, size)]: [size] successive draws. *)
Fixpoint np_random_normal_n (loc scale : float) (size : nat) : M World (list float) :=
  match size with
  | O => ret []
  | S size' =>
    x <- np_random_normal loc scale ;;
    xs <- np_random_normal_n loc scale size' ;;
    ret (x :: xs)
  end.

Definition np_random_uniform (low high : float) : M World float :=
  fun w =>
    let '(x, s) := np_uniform low high (np_random_state w) in
    (Ok x, {| random_state := random_state w; np_random_state := s |}).

(** *** [_generate_name] (lines 95-111) *)

Definition first_names : list string :=
  ["Alex"; "Casey"; "Jordan"; "Taylor"; "Morgan";
   "Robin"; "Blake"; "Sydney"; "Jamie"; "Avery"].

Definition last_names : list string :=
  ["Nguyen"; "Smith"; "Patel"; "Kim"; "Garcia";
   "Brown"; "Hernandez"; "Lee"; "Johnson"; "Davis"].

Definition _generate_name : M World string :=
  first <- random_choice first_names ;;
  last <- random_choice last_names ;;
  ret (first +:+ " " +:+ last).

(** *** [create_patients] (lines 114-196) *)

Definition pump_choices : list string :=
  ["Omnipod"; "Tandem t:slim X2"; "Medtronic 780G"].

Definition month_names : list string :=
  ["January"; "February"; "March"; "April"; "May"; "June";
   "July"; "August"; "September"; "October"; "November"; "December"].

Definition days_in_month : nat := 30.

(** The four narrative notes, each an f-string over the month's name. *)
Definition dawn_note (month_name : string) : string :=
  "Observed higher fasting glucose in " +:+ month_name +:+ ". " +:+
  "Increased early‑morning basal to address the dawn phenomenon【23†L633-L641】.".

Definition exercise_note (month_name : string) : string :=
  "Regular aerobic exercise in " +:+ month_name +:+ " lowered glucose levels. " +:+
  "Temporary basal reduction of 50% during workouts was applied【37†L9-L17】.".

Definition illness_note (month_name : string) : string :=
  "Illness in " +:+ month_name +:+ " increased insulin requirements. " +:+
  "Temporary basal increased by 30% as per sick‑day protocol【38†L19-L25】.".

Definition routine_note (month_name : string) : string :=
  "Routine month of pump therapy in " +:+ month_name +:+ ". Continued monitoring.".

(** The body of the loop over months (lines 150-194): one month of one
    patient. *)
Definition create_month (pump : string) (m_idx : Z) : M World MonthlyData :=
  draw <- np_random_normal 0 10 ;;
  let base_mean := (140 + draw)%float in
  let base_mean :=
    if negb (pump =? "Omnipod")%string then (base_mean - 5)%float else base_mean in
  raw <- np_random_normal_n base_mean 20 days_in_month ;;
  let bg_values := Np.clip raw 50 350 in
  basal_units <- np_random_uniform 18 40 ;;
  bolus_units <- np_random_uniform 15 35 ;;
  month_name <- lift (list_getitem month_names m_idx) ;;
  let note :=
    if py_in m_idx [0; 1] && PyFloat.gt base_mean 150 then
      dawn_note month_name
    else if py_in m_idx [3; 4; 5] && PyFloat.lt (np_mean bg_values) 120 then
      exercise_note month_name
    else if py_in m_idx [9] && PyFloat.gt (np_mean bg_values) 170 then
      illness_note month_name
    else
      routine_note month_name in
  ret {| bg_values := bg_values; basal_units := basal_units;
         bolus_units := bolus_units; notes := note |}.

(** The body of the loop over patient numbers (lines 146-195): one
    patient. *)
Definition create_patient (pid : Z) : M World Patient :=
  name <- _generate_name ;;
  pump <- random_choice pump_choices ;;
  let patient := {| id := pid; name := name; pump_type := pump; months := ∅ |} in
  for_each (py_range 12)
    (fun m_idx patient =>
       md <- create_month pump m_idx ;;
       ret (months_setitem patient m_idx md))
    patient.

(** The two loops of [create_patients] (lines 140-196), after the
    generators are seeded. *)
Definition populate (num_patients : Z) : M World (list Patient) :=
  for_each (py_range num_patients)
    (fun pid patients =>
       patient <- create_patient pid ;;
       ret (patients ++ [patient]))
    [].

Definition create_patients (num_patients : Z) : M World (list Patient) :=
  random_seed 42 ;;
  np_random_seed 42 ;;
  populate num_patients.

(** *** [Patient.average_bg], [Patient.metrics_for_month] (lines 83-92)
    and [recommend_adjustment] (lines 199-241)

    The patient is a mutable object handed over by reference: the
    methods run over it as their state. *)

Definition average_bg (month_index : Z) : M Patient float :=
  self <- get ;;
  month_data <- lift (dict_getitem (months self) month_index) ;;
  ret (np_mean (bg_values month_data)).

Definition metrics_for_month (month_index : Z) : M Patient (float * float * float) :=
  self <- get ;;
  md <- lift (dict_getitem (months self) month_index) ;;
  let avg_bg := np_mean (bg_values md) in
  ret (avg_bg, basal_units md, bolus_units md).

Definition above_target : string :=
  "Average blood glucose is above target. Consider increasing basal " +:+
  "rates in the early morning or adjusting the insulin‑to‑carbohydrate ratio " +:+
  "for meals. Review bolus timing to ensure pre‑meal dosing.".

Definition below_target : string :=
  "Average blood glucose is below target. Reduce basal delivery or increase " +:+
  "carbohydrate intake at snacks. Consider setting a temporary basal decrease " +:+
  "during times of increased activity.".

Definition within_target : string :=
  "Average blood glucose is within target range. Continue current pump settings " +:+
  "while maintaining regular monitoring.".

Definition recommend_adjustment (patient : Patient) (month_index : Z)
  : result string * Patient :=
  (metrics <- metrics_for_month month_index ;;
   let '(avg_bg, basal_units, bolus_units) := metrics in
   if PyFloat.gt avg_bg 180 then ret above_target
   else if PyFloat.lt avg_bg 80 then ret below_target
   else ret within_target) patient.

End Program.

(** *** [_format_month] (lines 244-250)

    The function keeps a table of its own, and indexes it as Python
    indexes a list. *)

Definition format_month_names : list string :=
  ["January"; "February"; "March"; "April"; "May"; "June";
   "July"; "August"; "September"; "October"; "November"; "December"].

Definition _format_month (index : Z) : result string :=
  list_getitem format_month_names index.

(** *** [main] (lines 253-315)

    [main] talks to Streamlit.  What the user did with a widget is an
    input of the run; the display calls are recorded in the order they
    are made.  Python's [format(x, ".1f")] is the language's own. *)

Class Streamlit : Type := {
  st_selectbox : string -> list string -> option string;
  st_slider : string -> Z -> Z -> Z -> Z;
  (* the option chosen is one of the options, and None when there are none *)
  st_selectbox_option : forall (label : string) (options : list string),
      match st_selectbox label options with
      | Some choice => choice ∈ options
      | None => options = []
      end;
  (* the value chosen lies between the bounds *)
  st_slider_range : forall (label : string) (min_value max_value value : Z),
      min_value <= value <= max_value ->
      min_value <= st_slider label min_value max_value value <= max_value
}.

Class PyFormat : Type := {
  format_1f : float -> string
}.

Inductive event : Type :=
  | SetPageConfig (page_title layout : string)
  | Title (body : string)
  | Markdown (body : string)
  | Subheader (body : string)
  | Write (body : string)
  | Selectbox (label : string) (options : list string)
  | Slider (label : string) (min_value max_value value : Z) (format help : string)
  | Columns (spec : list Z)
  | LineChart (index_name : string) (index : list Z)
              (column_name : string) (column : list float)
  | BarChart (index_name : string) (index : list string)
             (column_name : string) (column : list float)
  | Metric (label value : string)
  | InColumn (number : nat) (e : event).

(** What ends a run that does not return: [next] on an exhausted
    generator, or one of the lookup errors. *)
Inductive py_exn : Type :=
  | StopIteration
  | LookupError (e : exn).

Inductive outcome (A : Type) : Type :=
  | Returned (a : A)
  | Uncaught (e : py_exn).
Arguments Returned {A} a.
Arguments Uncaught {A} e.

Definition intro_text : string :=
  "
        This educational prototype allows you to explore the one‑year journey of
        several synthetic patients on insulin pump therapy.  Select a patient
        from the sidebar and use the month slider to step through their
        experience.  Charts display trends in blood glucose and insulin
        delivery, and narrative notes explain key events such as basal
        adjustments for the dawn phenomenon【23†L633-L641】, exercise adaptations【37†L9-L17】
        and sick‑day protocols【38†L19-L25】.  Recommendations are generated to
        illustrate how clinicians might respond to observed patterns.  These
        simulations are for training purposes only and do not reflect real
        patient data.
        ".

Section Page.
Context {rnd : PyRandom} {np : NumPy} {st : Streamlit} {fmt : PyFormat}.

(** A run of the script: the interpreter state and what has been rendered
    so far. *)
Record Session : Type := {
  interpreter : World;
  rendered : list event
}.

Definition UI (A : Type) : Type := Session -> outcome A * Session.

Definition ui_ret {A} (a : A) : UI A := fun s => (Returned a, s).

Definition ui_raise {A} (e : py_exn) : UI A := fun s => (Uncaught e, s).

Definition ui_bind {A B} (c : UI A) (k : A -> UI B) : UI B :=
  fun s =>
    match c s with
    | (Returned a, s') => k a s'
    | (Uncaught e, s') => (Uncaught e, s')
    end.

(** A display call. *)
Definition render (e : event) : UI unit :=
  fun s => (Returned tt, {| interpreter := interpreter s;
                            rendered := rendered s ++ [e] |}).

(** A call that works on the interpreter state. *)
Definition in_interpreter {A} (c : M World A) : UI A :=
  fun s =>
    match c (interpreter s) with
    | (Ok a, w) => (Returned a, {| interpreter := w; rendered := rendered s |})
    | (Raise e, w) => (Uncaught (LookupError e),
                       {| interpreter := w; rendered := rendered s |})
    end.

(** A call on an object: its value, and the object as the call left it. *)
Definition on_object {A} (r : result A * Patient) : UI (A * Patient) :=
  match r with
  | (Ok a, self) => ui_ret (a, self)
  | (Raise e, _) => ui_raise (LookupError e)
  end.

Definition of_result {A} (r : result A) : UI A :=
  match r with
  | Ok a => ui_ret a
  | Raise e => ui_raise (LookupError e)
  end.

(** [next(it)] on a generator yielding [xs]. *)
Definition next {A} (xs : list A) : UI A :=
  match xs with
  | x :: _ => ui_ret x
  | [] => ui_raise StopIteration
  end.

Definition sidebar_selectbox (label : string) (options : list string)
  : UI (option string) :=
  ui_bind (render (Selectbox label options))
    (fun _ => ui_ret (st_selectbox label options)).

Definition sidebar_slider (label : string) (min_value max_value value : Z)
    (format help : string) : UI Z :=
  ui_bind (render (Slider label min_value max_value value format help))
    (fun _ => ui_ret (st_slider label min_value max_value value)).

(** [p.name == selected_name], where the selection may be [None]. *)
Definition name_is (selected_name : option string) (p : Patient) : bool :=
  match selected_name with
  | Some n => (name p =? n)%string
  | None => false
  end.

Declare Scope ui_scope.
Delimit Scope ui_scope with ui.
Notation "x <- c1 ;; c2" := (ui_bind c1 (fun x => c2))
  (at level 100, c1 at next level, right associativity) : ui_scope.
Notation "c1 ;; c2" := (ui_bind c1 (fun _ => c2))
  (at level 100, right associativity) : ui_scope.

Definition main : UI unit :=
  (render (SetPageConfig "Insulin Pump Education" "wide") ;;
   render (Title "Insulin Pump Therapy: Longitudinal Case Studies") ;;
   render (Markdown intro_text) ;;
   patients <- in_interpreter (create_patients 10) ;;
   let patient_names := map name patients in
   selected_name <- sidebar_selectbox "Select patient" patient_names ;;
   selected_patient <- next (filter (fun p => name_is selected_name p = true) patients) ;;
   month_index <- sidebar_slider "Month" 0 11 0 "%d"
                    "Scroll through the months of the year to see changes over time." ;;
   render (Subheader ("Patient profile: " +:+ name selected_patient)) ;;
   render (Write ("**Pump type:** " +:+ pump_type selected_patient)) ;;
   month_name <- of_result (_format_month month_index) ;;
   render (Markdown ("### " +:+ month_name)) ;;
   called <- on_object (metrics_for_month month_index selected_patient) ;;
   let '(avg_bg, basal_units', bolus_units', selected_patient) := called in
   render (Columns [2; 2; 1]) ;;
   render (InColumn 1 (Markdown "**Blood Glucose Trend**")) ;;
   md <- of_result (dict_getitem (months selected_patient) month_index) ;;
   render (InColumn 1
             (LineChart "Day" (seqZ 1 (Z.of_nat (length (bg_values md))))
                "Blood Glucose (mg/dL)" (bg_values md))) ;;
   render (InColumn 2 (Markdown "**Insulin Delivery**")) ;;
   render (InColumn 2
             (BarChart "Type" ["Basal"; "Bolus"]
                "Units/day" [basal_units md; bolus_units md])) ;;
   render (InColumn 3 (Markdown "**Monthly Metrics**")) ;;
   render (InColumn 3 (Metric "Avg BG (mg/dL)" (format_1f avg_bg))) ;;
   render (InColumn 3 (Metric "Basal units/day" (format_1f basal_units'))) ;;
   render (InColumn 3 (Metric "Bolus units/day" (format_1f bolus_units'))) ;;
   render (Markdown "### Monthly Narrative") ;;
   shown <- of_result (dict_getitem (months selected_patient) month_index) ;;
   render (Write (notes shown)) ;;
   render (Markdown "### Recommendation") ;;
   called <- on_object (recommend_adjustment selected_patient month_index) ;;
   let '(rec, selected_patient) := called in
   render (Write rec))%ui.

(** What a run shows for patient [p] and month [m_idx], whose name is
    [month_name], whose record is [md] and whose recommendation is [rec]:
    the display calls of [main], in their order. *)
Definition page_of (patients : list Patient) (p : Patient) (m_idx : Z)
    (month_name : string) (md : MonthlyData) (rec : string) : list event :=
  [ SetPageConfig "Insulin Pump Education" "wide";
    Title "Insulin Pump Therapy: Longitudinal Case Studies";
    Markdown intro_text;
    Selectbox "Select patient" (map name patients);
    Slider "Month" 0 11 0 "%d"
      "Scroll through the months of the year to see changes over time.";
    Subheader ("Patient profile: " +:+ name p);
    Write ("**Pump type:** " +:+ pump_type p);
    Markdown ("### " +:+ month_name);
    Columns [2; 2; 1];
    InColumn 1 (Markdown "**Blood Glucose Trend**");
    InColumn 1 (LineChart "Day" (seqZ 1 (Z.of_nat (length (bg_values md))))
                  "Blood Glucose (mg/dL)" (bg_values md));
    InColumn 2 (Markdown "**Insulin Delivery**");
    InColumn 2 (BarChart "Type" ["Basal"; "Bolus"]
                  "Units/day" [basal_units md; bolus_units md]);
    InColumn 3 (Markdown "**Monthly Metrics**");
    InColumn 3 (Metric "Avg BG (mg/dL)" (format_1f (np_mean (bg_values md))));
    InColumn 3 (Metric "Basal units/day" (format_1f (basal_units md)));
    InColumn 3 (Metric "Bolus units/day" (format_1f (bolus_units md)));
    Markdown "### Monthly Narrative";
    Write (notes md);
    Markdown "### Recommendation";
    Write rec ].

End Page.

(** ** The vocabulary of the specification *)

(** The narrative notes, and the priority chain that selects one, in the
    specification's words: January or February with a base mean above
    150; else April, May or June with a monthly mean below 120; else
    October with a monthly mean above 170; else the routine note. *)
Inductive narrative : Type := Dawn | Exercise | Illness | Routine.

Definition narrative_rule (month_index : Z) (base_mean monthly_mean : float) : narrative :=
  if ((month_index =? 0) || (month_index =? 1)) && PyFloat.gt base_mean 150 then Dawn
  else if ((month_index =? 3) || (month_index =? 4) || (month_index =? 5))
          && PyFloat.lt monthly_mean 120 then Exercise
  else if (month_index =? 9) && PyFloat.gt monthly_mean 170 then Illness
  else Routine.

Section Specification.
Context {rnd : PyRandom} {np : NumPy}.

Definition narrative_text (n : narrative) (month_name : string) : string :=
  match n with
  | Dawn => dawn_note month_name
  | Exercise => exercise_note month_name
  | Illness => illness_note month_name
  | Routine => routine_note month_name
  end.

(** The interpreter state with both generators seeded by [a]. *)
Definition seeded (a : Z) : World :=
  {| random_state := py_seed a; np_random_state := np_seed a |}.

(** A generated patient: a member of what some call of the generator
    returned. *)
Definition generated (p : Patient) : Prop :=
  exists (num_patients : Z) (w : World) (patients : list Patient),
    fst (create_patients num_patients w) = Ok patients /\ p ∈ patients.

(** The value of [base_mean] once the pump has been looked at: 140 plus
    the draw, less 5 unless the pump is the Omnipod. *)
Definition adjust_base_mean (pump : string) (draw : float) : float :=
  if negb (pump =? "Omnipod")%string then (140 + draw - 5)%float
  else (140 + draw)%float.

(** The base mean of the month generated from interpreter state [w] for a
    patient on [pump]: the adjusted mean the month's readings are drawn
    around, and the one the first narrative rule tests. *)
Definition base_mean_at (pump : string) (w : World) : float :=
  adjust_base_mean pump (fst (np_normal 0 10 (np_random_state w))).

(** Month [m_idx] of [p] holds the record the loop body made from
    interpreter state [w]. *)
Definition month_made_at (p : Patient) (m_idx : Z) (w : World) : Prop :=
  exists md, months p !! m_idx = Some md /\
             fst (create_month (pump_type p) m_idx w) = Ok md.

(** The interpreter state [w] with NumPy's generator moved on to [s]. *)
Definition with_np (w : World) (s : np_state) : World :=
  {| random_state := random_state w; np_random_state := s |}.

(** What the loop over months leaves in a patient: the twelve months, each
    holding the record the loop body made from some interpreter state. *)
Definition made_by_loop (p : Patient) : Prop :=
  (forall m_idx, is_Some (months p !! m_idx) -> 0 <= m_idx < 12)
  /\ (forall m_idx, 0 <= m_idx < 12 -> exists w, month_made_at p m_idx w).

End Specification.

(** ** Binary64 facts

    The little that is needed of IEEE arithmetic: comparisons are total
    away from NaN, and adding or subtracting a finite number never
    produces a NaN out of a proper number. *)

Module FloatFacts.
Import PyFloat.

Lemma is_nan_spec (x : float) : is_nan x = true <-> Prim2SF x = S754_nan.
Proof.
  split.
  - intros Hx. unfold Prim2SF. now rewrite Hx.
  - intros Hx. unfold is_nan. rewrite FloatAxioms.eqb_spec, Hx. reflexivity.
Qed.

Lemma not_nan_spec (x : float) : not_nan x <-> Prim2SF x <> S754_nan.
Proof.
  unfold not_nan. rewrite <- is_nan_spec. destruct (is_nan x); split; congruence.
Qed.

Lemma is_finite_spec (x : float) :
  is_finite x = true ->
  (exists s, Prim2SF x = S754_zero s) \/ (exists s m e, Prim2SF x = S754_finite s m e).
Proof.
  unfold is_finite. intros Hfin.
  apply negb_true_iff, orb_false_iff in Hfin as [Hnan Hinf].
  apply not_nan_spec in Hnan.
  unfold is_infinity in Hinf. rewrite FloatAxioms.eqb_spec, FloatAxioms.abs_spec in Hinf.
  destruct (Prim2SF x) as [s|s| |s m e]; eauto; try congruence.
  now destruct s.
Qed.

(** *** Comparison *)

Lemma SFcompare_antisym (a b : spec_float) (c : comparison) :
  SFcompare a b = Some c -> SFcompare b a = Some (CompOpp c).
Proof.
  destruct a as [sa|sa| |sa ma ea], b as [sb|sb| |sb mb eb]; simpl;
    try discriminate; intros [= <-];
    try (destruct sa; reflexivity); try (destruct sb; reflexivity);
    try (destruct sa, sb; reflexivity).
  f_equal.
  destruct sa, sb; try reflexivity;
    rewrite (Z.compare_antisym ea eb);
    destruct (ea ?= eb)%Z; simpl; try reflexivity;
    now rewrite (Pos.compare_cont_antisym ma mb Eq).
Qed.

Lemma SFcompare_defined (a b : spec_float) :
  a <> S754_nan -> b <> S754_nan -> exists c, SFcompare a b = Some c.
Proof.
  destruct a, b; simpl; intros; try congruence; eauto.
Qed.

(** Away from NaN, [a <= b] fails only when [b <= a] holds. *)
Lemma leb_total (a b : float) :
  not_nan a -> not_nan b -> (a <=? b)%float = false -> (b <=? a)%float = true.
Proof.
  rewrite !not_nan_spec, !FloatAxioms.leb_spec. unfold SFleb. intros Ha Hb.
  destruct (SFcompare_defined _ _ Ha Hb) as [c Hc].
  rewrite Hc, (SFcompare_antisym _ _ _ Hc). now destruct c.
Qed.

Lemma leb_refl (a : float) : not_nan a -> (a <=? a)%float = true.
Proof.
  intros Ha. destruct (a <=? a)%float eqn:E; [reflexivity|].
  now rewrite (leb_total a a Ha Ha E) in E.
Qed.

Lemma leb_not_nan (a b : float) : (a <=? b)%float = true -> not_nan a /\ not_nan b.
Proof.
  rewrite FloatAxioms.leb_spec, !not_nan_spec. unfold SFleb.
  destruct (Prim2SF a), (Prim2SF b); simpl; intros; split; congruence.
Qed.

(** *** Rounding never invents a NaN *)

Lemma shr_1_nonneg (mrs : shr_record) : 0 <= shr_m mrs -> 0 <= shr_m (shr_1 mrs).
Proof.
  destruct mrs as [m r s]. simpl.
  destruct m as [|[p|p|]|[p|p|]]; simpl; lia.
Qed.

Lemma iter_shr_1_nonneg (p : positive) (mrs : shr_record) :
  0 <= shr_m mrs -> 0 <= shr_m (SpecFloat.iter_pos shr_1 p mrs).
Proof.
  revert mrs. induction p as [p IH|p IH|]; intros mrs Hm; simpl.
  - apply IH, IH, shr_1_nonneg, Hm.
  - apply IH, IH, Hm.
  - apply shr_1_nonneg, Hm.
Qed.

Lemma shr_fexp_nonneg (m e : Z) (l : location) :
  0 <= m -> 0 <= shr_m (fst (shr_fexp prec emax m e l)).
Proof.
  intros Hm. unfold shr_fexp, shr.
  assert (Hrec : 0 <= shr_m (shr_record_of_loc m l))
    by (destruct l as [|[]]; exact Hm).
  destruct (fexp prec emax (Zdigits2 m + e) - e); simpl; auto.
  now apply iter_shr_1_nonneg.
Qed.

Lemma round_nearest_even_nonneg (m : Z) (l : location) :
  0 <= m -> 0 <= round_nearest_even m l.
Proof.
  intros Hm. destruct l as [|[]]; simpl; try lia.
  destruct (Z.even m); lia.
Qed.

Lemma binary_round_aux_not_nan (sx : bool) (mx ex : Z) (lx : location) :
  0 <= mx -> binary_round_aux prec emax sx mx ex lx <> S754_nan.
Proof.
  intros Hm. unfold binary_round_aux.
  pose proof (shr_fexp_nonneg mx ex lx Hm) as H1.
  destruct (shr_fexp prec emax mx ex lx) as [mrs' e']. simpl in H1.
  pose proof (shr_fexp_nonneg _ e' loc_Exact
                (round_nearest_even_nonneg _ (loc_of_shr_record mrs') H1)) as H2.
  destruct (shr_fexp prec emax _ e' loc_Exact) as [mrs'' e'']. simpl in H2.
  destruct (shr_m mrs''); try lia; try discriminate.
  now destruct (_ <=? _)%Z.
Qed.

Lemma binary_normalize_not_nan (m e : Z) (szero : bool) :
  binary_normalize prec emax m e szero <> S754_nan.
Proof.
  destruct m; simpl; try discriminate; unfold binary_round;
    destruct (shl_align _ _ _); now apply binary_round_aux_not_nan.
Qed.

(** *** Addition and subtraction of a finite number *)

Lemma add_finite_not_nan (c x : float) :
  is_finite c = true -> not_nan x -> not_nan (c + x)%float.
Proof.
  intros Hc. rewrite !not_nan_spec, FloatAxioms.add_spec. intros Hx.
  destruct (is_finite_spec c Hc) as [[s ->]|(s & m & e & ->)];
    destruct (Prim2SF x) as [sx|sx| |sx mx ex]; simpl; try congruence.
  - now destruct s, sx.
  - apply binary_normalize_not_nan.
Qed.

Lemma add_finite_not_nan_r (x c : float) :
  is_finite c = true -> not_nan x -> not_nan (x + c)%float.
Proof.
  intros Hc. rewrite !not_nan_spec, FloatAxioms.add_spec. intros Hx.
  destruct (is_finite_spec c Hc) as [[s ->]|(s & m & e & ->)];
    destruct (Prim2SF x) as [sx|sx| |sx mx ex]; simpl; try congruence.
  - now destruct sx, s.
  - apply binary_normalize_not_nan.
Qed.

Lemma sub_finite_not_nan (x c : float) :
  is_finite c = true -> not_nan x -> not_nan (x - c)%float.
Proof.
  intros Hc. rewrite !not_nan_spec, FloatAxioms.sub_spec. intros Hx.
  destruct (is_finite_spec c Hc) as [[s ->]|(s & m & e & ->)];
    destruct (Prim2SF x) as [sx|sx| |sx mx ex]; simpl; try congruence.
  - now destruct sx, s.
  - apply binary_normalize_not_nan.
Qed.

(** A number between two finite numbers is finite. *)
Lemma between_finite (lo hi x : float) :
  is_finite lo = true -> is_finite hi = true ->
  within lo hi x = true -> is_finite x = true.
Proof.
  intros Hlo Hhi Hx. apply andb_true_iff in Hx as [H1 H2].
  destruct (leb_not_nan _ _ H1) as [_ Hnan].
  unfold is_finite. rewrite Hnan. simpl. apply negb_true_iff.
  unfold is_infinity. rewrite FloatAxioms.eqb_spec, FloatAxioms.abs_spec.
  rewrite FloatAxioms.leb_spec in H1, H2.
  destruct (is_finite_spec lo Hlo) as [[s Es]|(s & m & e & Es)];
    destruct (is_finite_spec hi Hhi) as [[s' Es']|(s' & m' & e' & Es')];
    rewrite Es in H1; rewrite Es' in H2;
    destruct (Prim2SF x) as [sx|[]| |sx mx ex]; try reflexivity;
    try discriminate; try (destruct s; discriminate);
    try (destruct s'; discriminate).
Qed.

(** *** Clipping *)

Lemma clip_one_within (a_min a_max a : float) :
  (a_min <=? a_max)%float = true -> not_nan a ->
  within a_min a_max (Np.clip_one a_min a_max a) = true.
Proof.
  intros Hbounds Ha.
  destruct (leb_not_nan _ _ Hbounds) as [Hmin Hmax].
  unfold within, Np.clip_one, Np.maximum, Np.minimum.
  rewrite Ha, orb_false_r.
  destruct (a_min <=? a)%float eqn:Hlo.
  - rewrite Hmax, orb_false_r.
    destruct (a_max <=? a)%float eqn:Hhi.
    + now rewrite Hbounds, leb_refl.
    + now rewrite Hlo, (leb_total _ _ Hmax Ha Hhi).
  - rewrite Hmax, orb_false_r.
    destruct (a_max <=? a_min)%float eqn:Hhi.
    + now rewrite Hbounds, leb_refl.
    + now rewrite leb_refl, Hbounds.
Qed.

Lemma clip_length (a : list float) (a_min a_max : float) :
  length (Np.clip a a_min a_max) = length a.
Proof. apply length_map. Qed.

End FloatFacts.

(** ** A reference implementation of the library interfaces

    A linear congruential generator stands in for both Mersenne
    Twisters.  Its "normal" draw is the mean moved by a whole number of
    standard deviations between -5 and 5, its "uniform" draw is one of
    the two bounds, and its mean sums from left to right.  It is only
    here to run the program and to show that the contracts can be met. *)

Module Reference.
Import PyFloat FloatFacts.

Definition lcg (s : Z) : Z := (1103515245 * s + 12345) mod 2147483648.

Definition randbelow (n : nat) (s : Z) : nat * Z :=
  (Z.to_nat ((lcg s / 65536) mod Z.of_nat n), lcg s).

(** [x + k * scale], by repeated addition. *)
Fixpoint shift_up (k : nat) (scale x : float) : float :=
  match k with
  | O => x
  | S k' => shift_up k' scale (x + scale)%float
  end.

Fixpoint shift_down (k : nat) (scale x : float) : float :=
  match k with
  | O => x
  | S k' => shift_down k' scale (x - scale)%float
  end.

Definition normal (loc scale : float) (s : Z) : float * Z :=
  let k := (lcg s / 65536) mod 11 - 5 in
  (if k <? 0 then shift_down (Z.to_nat (- k)) scale loc
   else shift_up (Z.to_nat k) scale loc,
   lcg s).

Definition uniform (low high : float) (s : Z) : float * Z :=
  (if Z.even (lcg s / 65536) then low else high, lcg s).

Definition mean (a : list float) : float :=
  (fold_left PrimFloat.add a 0 / of_uint63 (Uint63.of_Z (Z.of_nat (length a))))%float.

Lemma randbelow_lt (n : nat) (s : Z) :
  (0 < n)%nat -> (fst (randbelow n s) < n)%nat.
Proof.
  intros Hn. unfold randbelow. simpl.
  pose proof (Z.mod_pos_bound (lcg s / 65536) (Z.of_nat n)). lia.
Qed.

Lemma scale_ok_finite (scale : float) :
  np_scale_ok scale = true -> is_finite scale = true.
Proof.
  intros Hs. apply (between_finite 0 0x1p+1000); [reflexivity..|exact Hs].
Qed.

Lemma shift_up_not_nan (k : nat) (scale x : float) :
  is_finite scale = true -> not_nan x -> not_nan (shift_up k scale x).
Proof.
  intros Hs. revert x. induction k as [|k IH]; intros x Hx; simpl; [exact Hx|].
  now apply IH, add_finite_not_nan_r.
Qed.

Lemma shift_down_not_nan (k : nat) (scale x : float) :
  is_finite scale = true -> not_nan x -> not_nan (shift_down k scale x).
Proof.
  intros Hs. revert x. induction k as [|k IH]; intros x Hx; simpl; [exact Hx|].
  now apply IH, sub_finite_not_nan.
Qed.

Lemma normal_not_nan (loc scale : float) (s : Z) :
  not_nan loc -> np_scale_ok scale = true -> not_nan (fst (normal loc scale s)).
Proof.
  intros Hloc Hs%scale_ok_finite. unfold normal. simpl.
  destruct (_ <? 0); [now apply shift_down_not_nan|now apply shift_up_not_nan].
Qed.

Lemma uniform_within (low high : float) (s : Z) :
  np_bounds_ok low high = true -> within low high (fst (uniform low high s)) = true.
Proof.
  intros [_ Hle]%andb_true_iff. destruct (leb_not_nan _ _ Hle) as [Hlo Hhi].
  unfold uniform, within. simpl.
  destruct (Z.even _); now rewrite Hle, leb_refl.
Qed.

Definition random : PyRandom :=
  {| py_state := Z; py_seed := fun a => a;
     py_randbelow := randbelow; py_randbelow_lt := randbelow_lt |}.

Definition numpy : NumPy :=
  {| np_state := Z; np_seed := fun a => a;
     np_normal := normal; np_uniform := uniform; np_mean := mean;
     np_normal_not_nan := normal_not_nan;
     np_uniform_within := uniform_within |}.

Definition World : Type := @World random numpy.

(** The interpreter state of a fresh process: both generators at 0. *)
Definition fresh : World :=
  {| random_state := 0 : @py_state random; np_random_state := 0 : @np_state numpy |}.

(** The interpreter state of a process that has already drawn from both
    generators. *)
Definition used : World :=
  {| random_state := 2024 : @py_state random; np_random_state := 7 : @np_state numpy |}.

(** A state from which the base-mean draw is two standard deviations up:
    an Omnipod month generated from it is centred on 160. *)
Definition high_draw : World :=
  {| random_state := 0 : @py_state random; np_random_state := 37 : @np_state numpy |}.

(** The patients a run returned, none if it raised. *)
Definition cohort_of (r : result (list Patient)) : list Patient :=
  match r with
  | Ok patients => patients
  | Raise _ => []
  end.

(** The cohort of two the reference generators give, and its first
    patient. *)
Definition cohort : list Patient :=
  cohort_of (fst (@create_patients random numpy 2 fresh)).

Definition nobody : Patient :=
  {| id := 0; name := ""; pump_type := ""; months := ∅ |}.

Definition casey : Patient := default nobody (cohort !! 0%nat).

Definition no_month : MonthlyData :=
  {| bg_values := []; basal_units := 0; bolus_units := 0; notes := "" |}.

Definition month_of (p : Patient) (m_idx : Z) : MonthlyData :=
  default no_month (months p !! m_idx).

(** A month generated for an Omnipod patient from [high_draw]. *)
Definition high_january : MonthlyData :=
  match fst (@create_month random numpy "Omnipod" 0 high_draw) with
  | Ok md => md
  | Raise _ => no_month
  end.

(** Hand-made patients for the advisor: one month, thirty equal
    readings. *)
Definition flat_month (bg basal bolus : float) (note : string) : MonthlyData :=
  {| bg_values := replicate 30 bg; basal_units := basal; bolus_units := bolus;
     notes := note |}.

Definition flat_patient (bg : float) : Patient :=
  {| id := 0; name := "Alex Smith"; pump_type := "Omnipod";
     months := {[ 0 := flat_month bg 20 20 "" ]} |}.

(** The same readings in month 0 as [flat_patient bg], and nothing else
    in common with it. *)
Definition other_patient (bg : float) : Patient :=
  {| id := 7; name := "Robin Lee"; pump_type := "Medtronic 780G";
     months := {[ 0 := flat_month bg 38.5 16 "Routine";
                  1 := flat_month 300 18 35 "" ]} |}.

End Reference.

(** ** A reference user and formatter

    A user who picks the option in place [pick], counting round the
    options, and drags the slider to [month], stopped at the bounds; and
    [format(x, ".1f")], the exact value of the float rounded half to even
    at the first decimal. *)

Module ReferencePage.

Definition selectbox (pick : nat) (label : string) (options : list string)
  : option string :=
  options !! (pick mod length options)%nat.

Definition slider (month : Z) (label : string) (min_value max_value value : Z) : Z :=
  Z.max min_value (Z.min max_value month).

Definition round_half_even (num den : Z) : Z :=
  let q := num / den in
  match 2 * (num mod den) ?= den with
  | Lt => q
  | Gt => q + 1
  | Eq => if Z.even q then q else q + 1
  end.

Definition format_1f (x : float) : string :=
  match Prim2SF x with
  | S754_nan => "nan"
  | S754_infinity s => if s then "-inf" else "inf"
  | S754_zero s => if s then "-0.0" else "0.0"
  | S754_finite s m e =>
    let tenths :=
      if 0 <=? e then 10 * Z.pos m * 2 ^ e
      else round_half_even (10 * Z.pos m) (2 ^ (- e)) in
    (if s then "-" else "") +:+ pretty (tenths / 10) +:+ "."
      +:+ pretty (tenths mod 10)
  end.

Lemma selectbox_option (pick : nat) (label : string) (options : list string) :
  match selectbox pick label options with
  | Some choice => choice ∈ options
  | None => options = []
  end.
Proof.
  unfold selectbox. destruct (options !! _) as [choice|] eqn:Hpick.
  - apply list_elem_of_lookup. eauto.
  - destruct options as [|o options]; [reflexivity|].
    apply lookup_ge_None in Hpick.
    pose proof (Nat.mod_upper_bound pick (length (o :: options))) as Hlt.
    simpl in *. lia.
Qed.

Lemma slider_range (month : Z) (label : string) (min_value max_value value : Z) :
  min_value <= value <= max_value ->
  min_value <= slider month label min_value max_value value <= max_value.
Proof. unfold slider. lia. Qed.

Definition user (pick : nat) (month : Z) : Streamlit :=
  {| st_selectbox := selectbox pick; st_slider := slider month;
     st_selectbox_option := selectbox_option pick;
     st_slider_range := slider_range month |}.

Definition python : PyFormat := Build_PyFormat format_1f.

(** A run that starts with nothing rendered. *)
Definition start : @Session Reference.random Reference.numpy :=
  {| interpreter := Reference.fresh; rendered := [] |}.

(** A patient with one month and no reading in it. *)
Definition unread_patient : Patient :=
  {| id := 0; name := "Alex Smith"; pump_type := "Omnipod";
     months := {[ 0 := Reference.no_month ]} |}.

End ReferencePage.

(** ** Running the effects *)

Lemma bind_run {St A B} (c : M St A) (k : A -> M St B) (s s1 : St) (a : A) :
  c s = (Ok a, s1) -> bind c k s = k a s1.
Proof. intros Hc. unfold bind. now rewrite Hc. Qed.

(** Run the first call of every sequence it starts. *)
Ltac run_bind H := rewrite ?(bind_run _ _ _ _ _ H).

(** The loop rule: an invariant over the elements already visited, kept by
    a body that returns, is established for the whole list by a loop
    that returns. *)
Lemma for_each_run {St A B} (I : list A -> B -> Prop)
    (xs : list A) (body : A -> B -> M St B) (acc0 : B) :
  I [] acc0 ->
  (forall pre x post acc s, xs = pre ++ x :: post -> I pre acc ->
     exists acc' s', body x acc s = (Ok acc', s') /\ I (pre ++ [x]) acc') ->
  forall s, exists acc' s', for_each xs body acc0 s = (Ok acc', s') /\ I xs acc'.
Proof.
  intros Hinit Hstep.
  assert (Hgen : forall rest pre acc s, xs = pre ++ rest -> I pre acc ->
            exists acc' s', for_each rest body acc s = (Ok acc', s') /\ I xs acc').
  { induction rest as [|x rest IH]; intros pre acc s Hxs Hpre; simpl.
    - rewrite app_nil_r in Hxs. subst pre. unfold ret. eauto.
    - destruct (Hstep pre x rest acc s Hxs Hpre) as (acc1 & s1 & Hbody & Hacc1).
      rewrite (bind_run _ _ _ _ _ Hbody).
      apply (IH (pre ++ [x])); [|exact Hacc1].
      now rewrite <- app_assoc. }
  intros s. now apply (Hgen xs []).
Qed.

Lemma list_getitem_nat {A} (xs : list A) (i : nat) :
  (i < length xs)%nat ->
  exists x, list_getitem xs (Z.of_nat i) = Ok x /\ xs !! i = Some x.
Proof.
  intros Hi. destruct (lookup_lt_is_Some_2 xs i Hi) as [x Hx].
  exists x. split; [|exact Hx]. unfold list_getitem.
  assert (Hneg : (Z.of_nat i <? 0) = false) by (apply Z.ltb_ge; lia).
  assert (Hlen : (Z.of_nat (length xs) <=? Z.of_nat i) = false)
    by (apply Z.leb_gt; lia).
  cbv zeta. rewrite Hneg. cbv iota. rewrite Hneg, Hlen. simpl.
  now rewrite Nat2Z.id, Hx.
Qed.

Lemma month_names_getitem (m_idx : Z) :
  0 <= m_idx < 12 ->
  exists month_name, list_getitem month_names m_idx = Ok month_name.
Proof.
  intros Hm.
  destruct (list_getitem_nat month_names (Z.to_nat m_idx)) as (x & Hx & _).
  - change (length month_names) with 12%nat. lia.
  - rewrite Z2Nat.id in Hx by lia. eauto.
Qed.

Section GeneratorFacts.
Context {rnd : PyRandom} {np : NumPy}.

(** *** The library calls return *)

Lemma random_choice_run {A} (seq : list A) (w : World) :
  seq <> [] ->
  exists x s, random_choice seq w
              = (Ok x, {| random_state := s; np_random_state := np_random_state w |})
              /\ x ∈ seq.
Proof.
  intros Hseq. unfold random_choice.
  destruct seq as [|a seq']; [congruence|]. set (seq := a :: seq').
  pose proof (py_randbelow_lt (length seq) (random_state w)) as Hlt.
  destruct (py_randbelow (length seq) (random_state w)) as [i s]. simpl in Hlt.
  destruct (list_getitem_nat seq i) as (x & Hx & Hin); [apply Hlt; simpl; lia|].
  exists x, s. rewrite Hx. split; [reflexivity|].
  apply list_elem_of_lookup. eauto.
Qed.

Lemma np_random_normal_n_run (loc scale : float) (size : nat) (w : World) :
  exists raw s, np_random_normal_n loc scale size w
                = (Ok raw, {| random_state := random_state w; np_random_state := s |})
                /\ length raw = size
                /\ (PyFloat.not_nan loc -> np_scale_ok scale = true ->
                    Forall PyFloat.not_nan raw).
Proof.
  revert w. induction size as [|size IH]; intros w; simpl.
  - exists [], (np_random_state w). destruct w. unfold ret. simpl. auto.
  - unfold bind at 1, np_random_normal at 1.
    pose proof (np_normal_not_nan loc scale (np_random_state w)) as Hx.
    destruct (np_normal loc scale (np_random_state w)) as [x s1]. simpl in Hx.
    destruct (IH {| random_state := random_state w; np_random_state := s1 |})
      as (raw & s & Hrun & Hlen & Hnan).
    unfold bind. rewrite Hrun. simpl.
    exists (x :: raw), s. unfold ret. simpl. repeat split; [lia|].
    intros Hloc Hscale. constructor; auto.
Qed.

Lemma np_random_normal_run (loc scale : float) (w : World) :
  np_random_normal loc scale w
  = (Ok (fst (np_normal loc scale (np_random_state w))),
     {| random_state := random_state w;
        np_random_state := snd (np_normal loc scale (np_random_state w)) |}).
Proof. unfold np_random_normal. now destruct (np_normal _ _ _). Qed.

Lemma np_random_uniform_run (low high : float) (w : World) :
  np_random_uniform low high w
  = (Ok (fst (np_uniform low high (np_random_state w))),
     {| random_state := random_state w;
        np_random_state := snd (np_uniform low high (np_random_state w)) |}).
Proof. unfold np_random_uniform. now destruct (np_uniform _ _ _). Qed.

(** *** One month *)

Lemma adjust_base_mean_not_nan (pump : string) (draw : float) :
  PyFloat.not_nan draw -> PyFloat.not_nan (adjust_base_mean pump draw).
Proof.
  intros Hdraw. unfold adjust_base_mean.
  assert (PyFloat.not_nan (140 + draw)%float)
    by (now apply FloatFacts.add_finite_not_nan).
  destruct (negb _); [|assumption].
  now apply FloatFacts.sub_finite_not_nan.
Qed.

(** The chain of tests in the loop body is the specification's priority
    chain. *)
Lemma note_chain (m_idx : Z) (base_mean monthly_mean : float) (month_name : string) :
  (if py_in m_idx [0; 1] && PyFloat.gt base_mean 150 then dawn_note month_name
   else if py_in m_idx [3; 4; 5] && PyFloat.lt monthly_mean 120 then
     exercise_note month_name
   else if py_in m_idx [9] && PyFloat.gt monthly_mean 170 then
     illness_note month_name
   else routine_note month_name)
  = narrative_text (narrative_rule m_idx base_mean monthly_mean) month_name.
Proof.
  unfold narrative_rule, py_in. simpl. rewrite !orb_false_r, <- !orb_assoc.
  destruct (_ && PyFloat.gt base_mean 150); [reflexivity|].
  destruct (_ && PyFloat.lt monthly_mean 120); [reflexivity|].
  now destruct (_ && PyFloat.gt monthly_mean 170).
Qed.

Lemma create_month_run (pump : string) (m_idx : Z) (w : World) :
  0 <= m_idx < 12 ->
  exists raw s2 month_name,
    let s1 := snd (np_normal 0 10 (np_random_state w)) in
    let base_mean := base_mean_at pump w in
    let s3 := snd (np_uniform 18 40 s2) in
    let s4 := snd (np_uniform 15 35 s3) in
    np_random_normal_n base_mean 20 30 (with_np w s1) = (Ok raw, with_np w s2)
    /\ length raw = 30%nat
    /\ Forall PyFloat.not_nan raw
    /\ list_getitem month_names m_idx = Ok month_name
    /\ create_month pump m_idx w
       = (Ok {| bg_values := Np.clip raw 50 350;
                basal_units := fst (np_uniform 18 40 s2);
                bolus_units := fst (np_uniform 15 35 s3);
                notes := narrative_text
                           (narrative_rule m_idx base_mean
                              (np_mean (Np.clip raw 50 350))) month_name |},
          with_np w s4).
Proof.
  intros Hm. unfold create_month, days_in_month, base_mean_at.
  pose proof (np_random_normal_run 0 10 w) as Hdraw.
  pose proof (np_normal_not_nan 0 10 (np_random_state w) eq_refl eq_refl) as Hnan0.
  set (draw := fst (np_normal 0 10 (np_random_state w))) in *.
  set (s1 := snd (np_normal 0 10 (np_random_state w))) in *.
  apply (adjust_base_mean_not_nan pump) in Hnan0.
  run_bind Hdraw. cbv beta zeta. fold (adjust_base_mean pump draw) (with_np w s1).
  destruct (np_random_normal_n_run (adjust_base_mean pump draw) 20 30 (with_np w s1))
    as (raw & s2 & Hraw & Hlen & Hnan).
  specialize (Hnan Hnan0 eq_refl).
  change (random_state (with_np w s1)) with (random_state w) in Hraw.
  fold (with_np w s2) in Hraw.
  run_bind Hraw.
  run_bind (np_random_uniform_run 18 40 (with_np w s2)).
  change (np_random_state (with_np w s2)) with s2.
  change (random_state (with_np w s2)) with (random_state w).
  set (s3 := snd (np_uniform 18 40 s2)). fold (with_np w s3).
  run_bind (np_random_uniform_run 15 35 (with_np w s3)).
  change (np_random_state (with_np w s3)) with s3.
  change (random_state (with_np w s3)) with (random_state w).
  set (s4 := snd (np_uniform 15 35 s3)). fold (with_np w s4).
  destruct (month_names_getitem m_idx Hm) as [month_name Hname].
  assert (Hlift : lift (list_getitem month_names m_idx) (with_np w s4)
                  = (Ok month_name, with_np w s4))
    by (unfold lift; now rewrite Hname).
  run_bind Hlift. rewrite note_chain. unfold ret.
  exists raw, s2, month_name. cbv zeta. auto 6.
Qed.

(** *** One patient, and the cohort *)

Lemma generate_name_run (w : World) :
  exists name s, _generate_name w
                 = (Ok name, {| random_state := s; np_random_state := np_random_state w |}).
Proof.
  unfold _generate_name.
  destruct (random_choice_run first_names w) as (first & s1 & Hfirst & _);
    [discriminate|].
  destruct (random_choice_run last_names
              {| random_state := s1; np_random_state := np_random_state w |})
    as (last & s2 & Hlast & _); [discriminate|].
  cbn [random_state np_random_state] in Hlast.
  run_bind Hfirst. run_bind Hlast. unfold ret. eauto.
Qed.

Lemma create_patient_run (pid : Z) (w : World) :
  exists p w', create_patient pid w = (Ok p, w')
               /\ id p = pid /\ pump_type p ∈ pump_choices /\ made_by_loop p.
Proof.
  unfold create_patient.
  destruct (generate_name_run w) as (name & s2 & Hname).
  destruct (random_choice_run pump_choices
              {| random_state := s2; np_random_state := np_random_state w |})
    as (pump & s3 & Hpump & Hpump_in); [discriminate|].
  cbn [random_state np_random_state] in Hpump.
  run_bind Hname. run_bind Hpump.
  set (w3 := {| random_state := s3; np_random_state := np_random_state w |}).
  set (I := fun (pre : list Z) (patient : Patient) =>
              id patient = pid /\ pump_type patient = pump
              /\ (forall m, is_Some (months patient !! m) -> m ∈ pre)
              /\ (forall m, m ∈ pre -> exists wm, month_made_at patient m wm)).
  destruct (for_each_run I (py_range 12)
              (fun m_idx patient =>
                 md <- create_month pump m_idx ;;
                 ret (months_setitem patient m_idx md))
              {| id := pid; name := name; pump_type := pump; months := ∅ |})
    with (s := w3)
    as (p & w' & Hrun & Hid & Hp & Hdom & Hmade).
  - repeat split; simpl.
    + intros m [md Hmd]. now rewrite lookup_empty in Hmd.
    + intros m Hm. now apply elem_of_nil in Hm.
  - intros pre x post patient s Hrange (Hid & Hp & Hdom & Hmade).
    assert (Hx : 0 <= x < 12).
    { assert (x ∈ py_range 12) as Hin%elem_of_seqZ
        by (rewrite Hrange; apply elem_of_app; right; apply list_elem_of_here).
      lia. }
    destruct (create_month_run pump x s Hx) as (raw & sx & mn & _ & _ & _ & _ & Hmonth).
    run_bind Hmonth. unfold ret. eexists _, _. split; [reflexivity|].
    repeat split; simpl; try assumption.
    + intros m [md Hmd]. destruct (decide (x = m)) as [->|Hne];
        [apply elem_of_app; right; apply list_elem_of_here|].
      rewrite lookup_insert_ne in Hmd by assumption.
      apply elem_of_app. left. apply Hdom. eauto.
    + intros m Hm. unfold month_made_at. simpl. rewrite Hp.
      destruct (decide (x = m)) as [->|Hne].
      * exists s. eexists. rewrite lookup_insert_eq. split; [reflexivity|].
        now rewrite Hmonth.
      * assert (m ∈ pre) as Hpre.
        { apply elem_of_app in Hm as [Hm|Hm%list_elem_of_singleton]; congruence. }
        destruct (Hmade m Hpre) as (wm & md & Hmd & Hrun).
        exists wm, md. rewrite lookup_insert_ne by assumption.
        rewrite <- Hp. auto.
  - exists p, w'. split; [exact Hrun|]. split; [exact Hid|].
    split; [now rewrite Hp|]. split.
    + intros m Hm. apply Hdom, elem_of_seqZ in Hm. lia.
    + intros m Hm. apply Hmade, elem_of_seqZ. lia.
Qed.

Lemma populate_run (num_patients : Z) (w : World) :
  exists patients w',
    populate num_patients w = (Ok patients, w')
    /\ map id patients = py_range num_patients
    /\ Forall (fun p => pump_type p ∈ pump_choices /\ made_by_loop p) patients.
Proof.
  unfold populate.
  apply (for_each_run
           (fun pre patients =>
              map id patients = pre
              /\ Forall (fun p => pump_type p ∈ pump_choices /\ made_by_loop p)
                   patients)).
  - split; [reflexivity|constructor].
  - intros pre pid post patients s _ [Hids Hall].
    destruct (create_patient_run pid s) as (p & s' & Hrun & Hid & Hpump & Hmade).
    run_bind Hrun. unfold ret. eexists _, _. split; [reflexivity|]. split.
    + rewrite map_app. simpl. now rewrite Hids, Hid.
    + apply Forall_app. split; [exact Hall|]. apply Forall_singleton. now split.
Qed.

(** Seeding discards the interpreter state the call found. *)
Lemma create_patients_seeded (num_patients : Z) (w : World) :
  create_patients num_patients w = populate num_patients (seeded 42).
Proof. reflexivity. Qed.

Lemma create_patients_run (num_patients : Z) (w : World) :
  exists patients w',
    create_patients num_patients w = (Ok patients, w')
    /\ map id patients = py_range num_patients
    /\ Forall (fun p => pump_type p ∈ pump_choices /\ made_by_loop p) patients.
Proof. rewrite create_patients_seeded. apply populate_run. Qed.

Lemma generated_made_by_loop (p : Patient) :
  generated p -> pump_type p ∈ pump_choices /\ made_by_loop p.
Proof.
  intros (n & w & patients & Hrun & Hin).
  destruct (create_patients_run n w) as (patients' & w' & Hrun' & _ & Hall).
  rewrite Hrun' in Hrun. injection Hrun as <-.
  rewrite Forall_forall in Hall. now apply Hall.
Qed.

(** Every month of a generated patient is a month the loop body made, and
    carries what [create_month_run] says of it. *)
Lemma generated_month (p : Patient) (m_idx : Z) (md : MonthlyData) :
  generated p -> months p !! m_idx = Some md ->
  exists w raw s2 month_name,
    let base_mean := base_mean_at (pump_type p) w in
    let s1 := snd (np_normal 0 10 (np_random_state w)) in
    let s3 := snd (np_uniform 18 40 s2) in
    0 <= m_idx < 12
    /\ month_made_at p m_idx w
    /\ np_random_normal_n base_mean 20 30 (with_np w s1) = (Ok raw, with_np w s2)
    /\ length raw = 30%nat
    /\ Forall PyFloat.not_nan raw
    /\ list_getitem month_names m_idx = Ok month_name
    /\ md = {| bg_values := Np.clip raw 50 350;
               basal_units := fst (np_uniform 18 40 s2);
               bolus_units := fst (np_uniform 15 35 s3);
               notes := narrative_text
                          (narrative_rule m_idx base_mean
                             (np_mean (Np.clip raw 50 350))) month_name |}.
Proof.
  intros [_ [Hdom Hmade]]%generated_made_by_loop Hmd.
  assert (Hm : 0 <= m_idx < 12) by (apply Hdom; eauto).
  destruct (Hmade m_idx Hm) as (w & md' & Hmd' & Hrun).
  assert (md' = md) as -> by congruence.
  destruct (create_month_run (pump_type p) m_idx w Hm)
    as (raw & s2 & month_name & Hraw & Hlen & Hnan & Hname & Hmonth).
  cbv zeta in *. rewrite Hmonth in Hrun. injection Hrun as Hrun.
  exists w, raw, s2, month_name. cbv zeta.
  repeat (split; [first [assumption | lia | idtac]|]); [|now symmetry].
  exists md. split; [assumption|]. now rewrite Hmonth, Hrun.
Qed.

End GeneratorFacts.

(** ** The advisor *)

Section AdvisorFacts.
Context {np : NumPy}.

Lemma recommend_adjustment_found (p : Patient) (month_index : Z) (md : MonthlyData) :
  months p !! month_index = Some md ->
  recommend_adjustment p month_index
  = (Ok (if PyFloat.gt (np_mean (bg_values md)) 180 then above_target
         else if PyFloat.lt (np_mean (bg_values md)) 80 then below_target
         else within_target), p).
Proof.
  intros Hmd.
  unfold recommend_adjustment, metrics_for_month, bind, get, lift, dict_getitem.
  rewrite Hmd. unfold ret.
  destruct (PyFloat.gt _ 180); [reflexivity|]. now destruct (PyFloat.lt _ 80).
Qed.

Lemma recommend_adjustment_missing (p : Patient) (month_index : Z) :
  months p !! month_index = None ->
  recommend_adjustment p month_index = (Raise (KeyError month_index), p).
Proof.
  intros Hmd.
  unfold recommend_adjustment, metrics_for_month, bind, get, lift, dict_getitem.
  now rewrite Hmd.
Qed.

End AdvisorFacts.

(** ** The claims *)

Section Claims.
Context {rnd : PyRandom} {np : NumPy}.

(** C1 -- Generation is deterministic.  Two runs of the generator with the
    same count, whatever interpreter state each of them starts from, both
    return, and return the same list of patients: the same names, pump
    types, readings, basal and bolus scalars and notes, element for
    element. *)
Theorem create_patients_deterministic (num_patients : Z) (w1 w2 : World) :
  exists patients,
    fst (create_patients num_patients w1) = Ok patients
    /\ fst (create_patients num_patients w2) = Ok patients.
Proof.
  destruct (create_patients_run num_patients w1) as (patients & w' & Hrun & _).
  exists patients. rewrite (create_patients_seeded num_patients w2).
  rewrite <- (create_patients_seeded num_patients w1), Hrun. auto.
Qed.

(** C2 -- The month's note follows the priority chain.  For every generated
    patient and every month it holds, with the base mean the month was
    generated around and the mean of the month's readings: the note is
    the dawn-phenomenon note when the month is January or February and
    the base mean exceeds 150; else the exercise note when the month is
    April, May or June and the monthly mean is below 120; else the
    illness note when the month is October and the monthly mean exceeds
    170; else the routine note.  In particular a January month generated
    around a base mean of 160 carries the dawn-phenomenon note whatever
    its readings are. *)
Theorem narrative_priority_chain :
  (forall (p : Patient) (m_idx : Z) (md : MonthlyData),
      generated p -> months p !! m_idx = Some md ->
      exists (w : World) (month_name : string),
        month_made_at p m_idx w
        /\ list_getitem month_names m_idx = Ok month_name
        /\ notes md = narrative_text
                        (narrative_rule m_idx (base_mean_at (pump_type p) w)
                           (np_mean (bg_values md)))
                        month_name)
  /\ (forall (pump : string) (w : World) (md : MonthlyData),
        fst (create_month pump 0 w) = Ok md ->
        base_mean_at pump w = 160%float ->
        notes md = dawn_note "January").
Proof.
  split.
  - intros p m_idx md Hgen Hmd.
    destruct (generated_month p m_idx md Hgen Hmd)
      as (w & raw & s2 & month_name & _ & Hmade & _ & _ & _ & Hname & ->).
    exists w, month_name. auto.
  - intros pump w md Hrun Hbase.
    destruct (create_month_run pump 0 w ltac:(lia))
      as (raw & s2 & month_name & _ & _ & _ & Hname & Hmonth).
    cbv zeta in Hmonth. rewrite Hmonth in Hrun. injection Hrun as <-.
    injection Hname as <-. simpl. now rewrite Hbase.
Qed.

(** C3 -- The advisor classifies the monthly mean.  For every patient and
    every month the patient holds, the advisor returns the above-target
    recommendation when the mean of the month's readings is above 180,
    else the below-target one when the mean is below 80, else the
    within-target one; so a mean of 200 gives the above-target string, 70
    the below-target string and 130 the within-target string. *)
Theorem recommend_adjustment_classifies (p : Patient) (month_index : Z) (md : MonthlyData) :
  months p !! month_index = Some md ->
  let avg_bg := np_mean (bg_values md) in
  let advice := fst (recommend_adjustment p month_index) in
  (PyFloat.gt avg_bg 180 = true -> advice = Ok above_target)
  /\ (PyFloat.gt avg_bg 180 = false -> PyFloat.lt avg_bg 80 = true ->
      advice = Ok below_target)
  /\ (PyFloat.gt avg_bg 180 = false -> PyFloat.lt avg_bg 80 = false ->
      advice = Ok within_target)
  /\ (avg_bg = 200%float -> advice = Ok above_target)
  /\ (avg_bg = 70%float -> advice = Ok below_target)
  /\ (avg_bg = 130%float -> advice = Ok within_target).
Proof.
  intros Hmd avg_bg advice. subst advice.
  rewrite (recommend_adjustment_found p month_index md Hmd). fold avg_bg. simpl.
  repeat split.
  - now intros ->.
  - now intros -> ->.
  - now intros -> ->.
  - now intros ->.
  - now intros ->.
  - now intros ->.
Qed.

(** C4 -- The shape of the cohort.  For every count the generator returns,
    and every patient it returns has exactly twelve monthly records, one
    for each month index 0 to 11, each with exactly 30 daily readings. *)
Theorem cohort_shape (num_patients : Z) (w : World) :
  exists patients,
    fst (create_patients num_patients w) = Ok patients
    /\ forall p, p ∈ patients ->
         size (months p) = 12%nat
         /\ (forall m_idx, is_Some (months p !! m_idx) <-> 0 <= m_idx <= 11)
         /\ (forall m_idx md, months p !! m_idx = Some md ->
               length (bg_values md) = 30%nat).
Proof.
  destruct (create_patients_run num_patients w) as (patients & w' & Hrun & _).
  exists patients. rewrite Hrun. split; [reflexivity|]. intros p Hp.
  assert (Hgen : generated p).
  { exists num_patients, w, patients. now rewrite Hrun. }
  destruct (generated_made_by_loop p Hgen) as [_ [Hdom Hmade]].
  assert (Hkeys : forall m_idx, is_Some (months p !! m_idx) <-> 0 <= m_idx <= 11).
  { intros m_idx. split.
    - intros Hm%Hdom. lia.
    - intros Hm. destruct (Hmade m_idx ltac:(lia)) as (wm & md & Hmd & _). eauto. }
  split; [|split; [exact Hkeys|]].
  - rewrite <- size_dom.
    assert (dom (months p) = list_to_set (seqZ 0 12)) as ->.
    { apply set_eq. intros m_idx.
      rewrite elem_of_dom, elem_of_list_to_set, elem_of_seqZ, Hkeys. lia. }
    rewrite size_list_to_set by apply NoDup_seqZ. reflexivity.
  - intros m_idx md Hmd.
    destruct (generated_month p m_idx md Hgen Hmd)
      as (wm & raw & s2 & mn & _ & _ & _ & Hlen & _ & _ & ->).
    simpl. now rewrite FloatFacts.clip_length.
Qed.

(** C5 -- Readings are clipped.  For every generated patient and every
    month it holds, each of the month's readings lies in [50, 350]. *)
Theorem readings_within_50_350 (p : Patient) (m_idx : Z) (md : MonthlyData) :
  generated p -> months p !! m_idx = Some md ->
  Forall (fun bg => PyFloat.within 50 350 bg = true) (bg_values md).
Proof.
  intros Hgen Hmd.
  destruct (generated_month p m_idx md Hgen Hmd)
    as (wm & raw & s2 & mn & _ & _ & _ & _ & Hnan & _ & ->).
  simpl. unfold Np.clip. apply Forall_map.
  eapply Forall_impl; [exact Hnan|]. intros bg Hbg. simpl.
  now apply FloatFacts.clip_one_within.
Qed.

(** C6 -- Doses are in range.  For every generated patient and every month
    it holds, the basal scalar lies in [18, 40] and the bolus scalar in
    [15, 35]. *)
Theorem doses_within_ranges (p : Patient) (m_idx : Z) (md : MonthlyData) :
  generated p -> months p !! m_idx = Some md ->
  PyFloat.within 18 40 (basal_units md) = true
  /\ PyFloat.within 15 35 (bolus_units md) = true.
Proof.
  intros Hgen Hmd.
  destruct (generated_month p m_idx md Hgen Hmd)
    as (wm & raw & s2 & mn & _ & _ & _ & _ & _ & _ & ->).
  simpl. split; now apply np_uniform_within.
Qed.

(** C7 -- The advisor is total on the months 0 to 11 and has no side
    effect.  On a generated patient it returns a recommendation for every
    month index from 0 to 11 and raises [KeyError] for every other one;
    in both cases it leaves the patient as it found it. *)
Theorem recommend_adjustment_total (p : Patient) (month_index : Z) :
  generated p ->
  (0 <= month_index <= 11 ->
     exists advice, recommend_adjustment p month_index = (Ok advice, p))
  /\ (~ 0 <= month_index <= 11 ->
     recommend_adjustment p month_index = (Raise (KeyError month_index), p)).
Proof.
  intros [_ [Hdom Hmade]]%generated_made_by_loop. split.
  - intros Hm. destruct (Hmade month_index ltac:(lia)) as (w & md & Hmd & _).
    rewrite (recommend_adjustment_found p month_index md Hmd). eauto.
  - intros Hm. apply recommend_adjustment_missing.
    destruct (months p !! month_index) as [md|] eqn:Hmd; [|reflexivity].
    exfalso. apply Hm. assert (0 <= month_index < 12) by (apply Hdom; eauto). lia.
Qed.

(** C8 -- The sampling procedure.  The generator returns for every count,
    with one patient per number below the count.  Each month of a
    generated patient was made from one draw of [normal(0, 10)] added to
    140, less 5 exactly when the pump is not the Omnipod; then thirty
    draws of [normal(base_mean, 20)], each clipped to [50, 350], as the
    readings; then one draw of [uniform(18, 40)] as the basal scalar and
    one of [uniform(15, 35)] as the bolus scalar, each draw taking up
    NumPy's stream where the one before left it. *)
Theorem sampling_procedure :
  (forall (num_patients : Z) (w : World),
      exists patients w',
        create_patients num_patients w = (Ok patients, w')
        /\ map id patients = py_range num_patients)
  /\ (forall (p : Patient) (m_idx : Z) (md : MonthlyData),
        generated p -> months p !! m_idx = Some md ->
        exists (w : World) (draw : float) (raw : list float)
               (s1 s2 s3 s4 : np_state),
          month_made_at p m_idx w
          /\ np_normal 0 10 (np_random_state w) = (draw, s1)
          /\ let base_mean :=
               if (pump_type p =? "Omnipod")%string then (140 + draw)%float
               else (140 + draw - 5)%float in
             np_random_normal_n base_mean 20 30 (with_np w s1)
             = (Ok raw, with_np w s2)
             /\ length raw = 30%nat
             /\ bg_values md = map (Np.clip_one 50 350) raw
             /\ np_uniform 18 40 s2 = (basal_units md, s3)
             /\ np_uniform 15 35 s3 = (bolus_units md, s4)).
Proof.
  split.
  - intros num_patients w.
    destruct (create_patients_run num_patients w) as (patients & w' & Hrun & Hids & _).
    eauto.
  - intros p m_idx md Hgen Hmd.
    destruct (generated_month p m_idx md Hgen Hmd)
      as (w & raw & s2 & mn & _ & Hmade & Hraw & Hlen & _ & _ & ->).
    exists w, (fst (np_normal 0 10 (np_random_state w))), raw,
      (snd (np_normal 0 10 (np_random_state w))), s2,
      (snd (np_uniform 18 40 s2)),
      (snd (np_uniform 15 35 (snd (np_uniform 18 40 s2)))).
    split; [exact Hmade|]. split; [apply surjective_pairing|].
    cbv zeta. simpl. split.
    + unfold base_mean_at, adjust_base_mean in Hraw.
      now destruct (pump_type p =? "Omnipod")%string.
    + repeat split; try assumption; apply surjective_pairing.
Qed.

(** C9 -- The seed is not a parameter.  Every call reseeds both generators
    with 42: the call is the two loops run from the state seeded with 42,
    so its result, and the interpreter state it leaves, do not depend on
    the state it was made in, and any two calls with the same count
    agree. *)
Theorem seed_is_fixed (num_patients : Z) :
  (forall w, create_patients num_patients w = populate num_patients (seeded 42))
  /\ (forall w1 w2,
        create_patients num_patients w1 = create_patients num_patients w2).
Proof.
  split.
  - intros w. apply create_patients_seeded.
  - intros w1 w2. now rewrite !create_patients_seeded.
Qed.

(** C10 -- The advice depends on the month's readings only.  Two patients
    whose records for a month hold the same readings get the same
    recommendation for that month, whatever else differs between
    them. *)
Theorem advice_depends_on_readings_only
    (p1 p2 : Patient) (month_index : Z) (md1 md2 : MonthlyData) :
  months p1 !! month_index = Some md1 ->
  months p2 !! month_index = Some md2 ->
  bg_values md1 = bg_values md2 ->
  fst (recommend_adjustment p1 month_index) = fst (recommend_adjustment p2 month_index).
Proof.
  intros H1 H2 Hbg.
  rewrite (recommend_adjustment_found p1 month_index md1 H1).
  rewrite (recommend_adjustment_found p2 month_index md2 H2).
  now rewrite Hbg.
Qed.

End Claims.

(** ** Beyond the claims: the rest of the module *)

(** *** Python's list indexing *)

Lemma list_getitem_inside {A} (xs : list A) (i : Z) :
  0 <= i < Z.of_nat (length xs) ->
  exists x, list_getitem xs i = Ok x /\ xs !! Z.to_nat i = Some x.
Proof.
  intros Hi. destruct (list_getitem_nat xs (Z.to_nat i)) as (x & Hx & Hlook); [lia|].
  rewrite Z2Nat.id in Hx by lia. eauto.
Qed.

Lemma list_getitem_wraps {A} (xs : list A) (i : Z) :
  - Z.of_nat (length xs) <= i < 0 ->
  list_getitem xs i = list_getitem xs (i + Z.of_nat (length xs)).
Proof.
  intros Hi. unfold list_getitem. cbv zeta.
  assert (H1 : (i <? 0) = true) by (apply Z.ltb_lt; lia).
  assert (H2 : (i + Z.of_nat (length xs) <? 0) = false) by (apply Z.ltb_ge; lia).
  rewrite H1. cbv iota. now rewrite !H2.
Qed.

Lemma list_getitem_outside {A} (xs : list A) (i : Z) :
  i < - Z.of_nat (length xs) \/ Z.of_nat (length xs) <= i ->
  list_getitem xs i = Raise IndexError.
Proof.
  intros Hi. unfold list_getitem. cbv zeta.
  destruct (Z_lt_dec i 0) as [Hneg|Hpos].
  - assert (H1 : (i <? 0) = true) by (apply Z.ltb_lt; lia).
    assert (H2 : (i + Z.of_nat (length xs) <? 0) = true) by (apply Z.ltb_lt; lia).
    rewrite H1. cbv iota. now rewrite H2.
  - assert (H1 : (i <? 0) = false) by (apply Z.ltb_ge; lia).
    assert (H2 : (Z.of_nat (length xs) <=? i) = true) by (apply Z.leb_le; lia).
    rewrite H1. cbv iota. now rewrite H1, H2.
Qed.

(** *** The notes *)

(** For one month name the four notes are four different strings. *)
Lemma narrative_text_inj (k1 k2 : narrative) (month_name : string) :
  narrative_text k1 month_name = narrative_text k2 month_name -> k1 = k2.
Proof.
  destruct k1, k2; try reflexivity;
    unfold narrative_text, dawn_note, exercise_note, illness_note, routine_note;
    simpl; discriminate.
Qed.

Lemma narrative_rule_season (m_idx : Z) (base_mean monthly_mean : float) :
  match narrative_rule m_idx base_mean monthly_mean with
  | Dawn => (m_idx = 0 \/ m_idx = 1) /\ PyFloat.gt base_mean 150 = true
  | Exercise => 3 <= m_idx <= 5 /\ PyFloat.lt monthly_mean 120 = true
  | Illness => m_idx = 9 /\ PyFloat.gt monthly_mean 170 = true
  | Routine => True
  end.
Proof.
  unfold narrative_rule.
  destruct (Z.eqb_spec m_idx 0), (Z.eqb_spec m_idx 1), (Z.eqb_spec m_idx 3),
    (Z.eqb_spec m_idx 4), (Z.eqb_spec m_idx 5), (Z.eqb_spec m_idx 9);
    try lia; simpl;
    repeat match goal with
           | |- context [if ?b then _ else _] => destruct b eqn:?
           end;
    try exact I; split; auto; lia.
Qed.

(** *** More on running the effects *)

Lemma bind_inv {St A B} (c : M St A) (k : A -> M St B) (s s' : St) (b : B) :
  bind c k s = (Ok b, s') ->
  exists a s1, c s = (Ok a, s1) /\ k a s1 = (Ok b, s').
Proof.
  unfold bind. destruct (c s) as [[a|e] s1]; [eauto|discriminate].
Qed.

(** The loop rule for what a loop that returned has kept. *)
Lemma for_each_inv {St A B} (I : B -> Prop) (xs : list A) (body : A -> B -> M St B) :
  (forall x acc s acc' s', x ∈ xs -> I acc -> body x acc s = (Ok acc', s') -> I acc') ->
  forall acc s acc' s',
    I acc -> for_each xs body acc s = (Ok acc', s') -> I acc'.
Proof.
  induction xs as [|x xs IH]; intros Hstep acc s acc' s' Hacc Hrun; simpl in Hrun.
  - injection Hrun as <- _. exact Hacc.
  - apply bind_inv in Hrun as (acc1 & s1 & Hbody & Hrest).
    apply (IH (fun y a t a' t' Hy => Hstep y a t a' t' (list_elem_of_further _ _ _ Hy))
              acc1 s1 acc' s'); [|exact Hrest].
    apply (Hstep x acc s acc1 s1); [apply list_elem_of_here|assumption..].
Qed.

(** A loop over two lists in a row is the two loops in a row. *)
Lemma for_each_app {St A B} (xs ys : list A) (body : A -> B -> M St B) (acc : B) (s : St) :
  for_each (xs ++ ys) body acc s
  = bind (for_each xs body acc) (fun acc' => for_each ys body acc') s.
Proof.
  revert acc s. induction xs as [|x xs IH]; intros acc s; simpl; [reflexivity|].
  unfold bind at 1 2 3. destruct (body x acc s) as [[acc1|e] s1]; [|reflexivity].
  rewrite IH. reflexivity.
Qed.

(** *** More binary64 facts *)

(** Both ways round, a comparison with a number other than zero leaves
    one float. *)
Lemma leb_antisym_finite (a b : float) (s : bool) (m : positive) (e : Z) :
  Prim2SF b = S754_finite s m e ->
  (a <=? b)%float = true -> (b <=? a)%float = true -> a = b.
Proof.
  intros Hb. rewrite !FloatAxioms.leb_spec, Hb. unfold SFleb. intros Hab Hba.
  apply Prim2SF_inj. rewrite Hb.
  destruct (SFcompare (Prim2SF a) (S754_finite s m e)) as [c|] eqn:Hc;
    [|discriminate].
  rewrite (FloatFacts.SFcompare_antisym _ _ _ Hc) in Hba.
  assert (c = Eq) as -> by (destruct c; simpl in *; congruence).
  clear Hab Hba.
  destruct (Prim2SF a) as [sa|sa| |sa ma ea]; simpl in Hc;
    try discriminate; try (destruct s; discriminate); try (destruct sa; discriminate).
  destruct sa, s; try discriminate;
    destruct (ea ?= e) eqn:He; try discriminate;
    apply Z.compare_eq in He; subst ea;
    injection Hc as Hc;
    [apply (f_equal CompOpp) in Hc; rewrite CompOpp_involutive in Hc; simpl in Hc|];
    apply Pos.compare_eq in Hc; now subst ma.
Qed.

(** No order comparison holds of a NaN. *)
Lemma ltb_nan (x c : float) :
  is_nan x = true -> (c <? x)%float = false /\ (x <? c)%float = false.
Proof.
  intros Hx%FloatFacts.is_nan_spec. rewrite !FloatAxioms.ltb_spec, Hx.
  unfold SFltb. split; [now destruct (Prim2SF c)|reflexivity].
Qed.

(** [np.clip] returns its argument or one of the bounds, and its argument
    when that lies between the bounds. *)
Lemma clip_one_cases (a_min a_max a : float) :
  Np.clip_one a_min a_max a = a \/ Np.clip_one a_min a_max a = a_min
  \/ Np.clip_one a_min a_max a = a_max.
Proof.
  unfold Np.clip_one, Np.minimum, Np.maximum.
  destruct (_ || is_nan a); destruct (_ || is_nan a_max); auto.
Qed.

Lemma clip_one_inside (a_min a_max a : float) (s : bool) (m : positive) (e : Z) :
  Prim2SF a_max = S754_finite s m e ->
  PyFloat.within a_min a_max a = true -> Np.clip_one a_min a_max a = a.
Proof.
  intros Hmax [Hlo Hhi]%andb_true_iff.
  unfold Np.clip_one, Np.minimum, Np.maximum. rewrite Hlo. simpl.
  destruct ((a_max <=? a)%float || is_nan a_max) eqn:Hcmp; [|reflexivity].
  apply orb_true_iff in Hcmp as [Hge|Hnan].
  - symmetry. exact (leb_antisym_finite a a_max s m e Hmax Hhi Hge).
  - apply FloatFacts.is_nan_spec in Hnan. congruence.
Qed.

Section GeneratorInversion.
Context {rnd : PyRandom} {np : NumPy}.

Lemma random_choice_in {A} (seq : list A) (w w' : World) (x : A) :
  random_choice seq w = (Ok x, w') -> x ∈ seq.
Proof.
  destruct seq as [|a seq]; [discriminate|]. intros Hrun.
  destruct (random_choice_run (a :: seq) w) as (x' & s & Hrun' & Hin); [discriminate|].
  rewrite Hrun' in Hrun. now injection Hrun as <- _.
Qed.

Lemma generate_name_in (w w' : World) (full_name : string) :
  _generate_name w = (Ok full_name, w') ->
  exists first last,
    first ∈ first_names /\ last ∈ last_names
    /\ full_name = first +:+ " " +:+ last.
Proof.
  unfold _generate_name. intros Hrun.
  apply bind_inv in Hrun as (first & w1 & Hfirst%random_choice_in & Hrun).
  apply bind_inv in Hrun as (last & w2 & Hlast%random_choice_in & Hrun).
  injection Hrun as <- _. eauto.
Qed.

Lemma create_patient_fields (pid : Z) (w w' : World) (p : Patient) :
  create_patient pid w = (Ok p, w') ->
  id p = pid
  /\ pump_type p ∈ pump_choices
  /\ exists first last,
       first ∈ first_names /\ last ∈ last_names
       /\ name p = first +:+ " " +:+ last.
Proof.
  unfold create_patient. intros Hrun.
  apply bind_inv in Hrun as (full_name & w1 & Hname%generate_name_in & Hrun).
  apply bind_inv in Hrun as (pump & w2 & Hpump%random_choice_in & Hrun).
  apply (for_each_inv
           (fun patient => id patient = pid /\ pump_type patient = pump
                           /\ name patient = full_name)) in Hrun.
  - destruct Hrun as (-> & -> & ->). auto.
  - intros m_idx patient s patient' s' _ (Hid & Hpump' & Hname') Hbody.
    apply bind_inv in Hbody as (md & s1 & _ & Hret).
    injection Hret as <- _. simpl. auto.
  - simpl. auto.
Qed.

(** Every generated patient was returned by the body of the loop over
    patient numbers. *)
Lemma generated_by_create_patient (p : Patient) :
  generated p -> exists w w', create_patient (id p) w = (Ok p, w').
Proof.
  intros (n & w & patients & Hrun & Hin).
  rewrite create_patients_seeded in Hrun. unfold populate in Hrun.
  destruct (for_each _ _ _ _) as [r w'] eqn:Hloop. simpl in Hrun. subst r.
  apply (for_each_inv
           (fun patients => Forall (fun p => exists w w',
                                       create_patient (id p) w = (Ok p, w'))
                              patients)) in Hloop.
  - rewrite Forall_forall in Hloop. now apply Hloop.
  - intros pid acc s acc' s' _ Hacc Hbody.
    apply bind_inv in Hbody as (q & s1 & Hq & Hret). injection Hret as <- _.
    apply Forall_app. split; [exact Hacc|]. apply Forall_singleton.
    destruct (create_patient_fields pid s s1 q Hq) as (<- & _). eauto.
  - constructor.
Qed.

End GeneratorInversion.

Section Extras.
Context {rnd : PyRandom} {np : NumPy}.

(** X1 -- [_format_month] takes the indices -12 to 11.  From 0 to 11 it
    returns the entry of its table; from -12 to -1 it counts from the
    end, so it returns what it returns twelve places up; every other
    index raises [IndexError]. *)
Theorem format_month_domain (index : Z) :
  (0 <= index <= 11 ->
     exists month_name, _format_month index = Ok month_name
                        /\ format_month_names !! Z.to_nat index = Some month_name)
  /\ (-12 <= index <= -1 -> _format_month index = _format_month (index + 12))
  /\ (index < -12 \/ 11 < index -> _format_month index = Raise IndexError).
Proof.
  unfold _format_month. split; [|split]; intros Hi.
  - apply list_getitem_inside. change (length format_month_names) with 12%nat. lia.
  - apply (list_getitem_wraps format_month_names).
    change (length format_month_names) with 12%nat. lia.
  - apply list_getitem_outside. change (length format_month_names) with 12%nat. lia.
Qed.

(** X2 -- A note names its month, in season.  The note of month [m_idx] of
    a generated patient is one of the four notes written on the name
    [_format_month] gives for [m_idx]; it is the dawn-phenomenon note
    only in January or February, the exercise note only from April to
    June, and the illness note only in October, so every March, July,
    August, September, November and December carries the routine
    note. *)
Theorem note_names_its_month (p : Patient) (m_idx : Z) (md : MonthlyData) :
  generated p -> months p !! m_idx = Some md ->
  exists month_name,
    _format_month m_idx = Ok month_name
    /\ (exists kind, notes md = narrative_text kind month_name)
    /\ (notes md = dawn_note month_name -> m_idx = 0 \/ m_idx = 1)
    /\ (notes md = exercise_note month_name -> 3 <= m_idx <= 5)
    /\ (notes md = illness_note month_name -> m_idx = 9)
    /\ (m_idx = 2 \/ 6 <= m_idx <= 8 \/ 10 <= m_idx <= 11 ->
        notes md = routine_note month_name).
Proof.
  intros Hgen Hmd.
  destruct (generated_month p m_idx md Hgen Hmd)
    as (w & raw & s2 & month_name & Hm & _ & _ & _ & _ & Hname & ->).
  exists month_name. split; [exact Hname|]. simpl.
  pose proof (narrative_rule_season m_idx (base_mean_at (pump_type p) w)
                (np_mean (Np.clip raw 50 350))) as Hseason.
  split; [eauto|].
  split; [|split; [|split]].
  - intros Hnote. apply (narrative_text_inj _ Dawn) in Hnote.
    rewrite Hnote in Hseason. tauto.
  - intros Hnote. apply (narrative_text_inj _ Exercise) in Hnote.
    rewrite Hnote in Hseason. tauto.
  - intros Hnote. apply (narrative_text_inj _ Illness) in Hnote.
    rewrite Hnote in Hseason. tauto.
  - intros Hoff. destruct (narrative_rule _ _ _); try reflexivity; lia.
Qed.

(** X3 -- Who the patients are.  The name of a generated patient is a first
    name of the list of ten, a space, and a family name of the list of
    ten; its pump is one of the three pump choices. *)
Theorem patient_name_and_pump (p : Patient) :
  generated p ->
  (exists first last,
      first ∈ first_names /\ last ∈ last_names
      /\ name p = first +:+ " " +:+ last)
  /\ pump_type p ∈ pump_choices.
Proof.
  intros (w & w' & Hrun)%generated_by_create_patient.
  destruct (create_patient_fields _ _ _ _ Hrun) as (_ & Hpump & Hname). auto.
Qed.

(** X4 -- A smaller cohort is the beginning of a larger one.  For counts
    [k <= n], whatever states the two calls are made in,
    [create_patients k] returns the first [k] patients of what
    [create_patients n] returns. *)
Theorem smaller_cohort_is_prefix (k n : Z) (w1 w2 : World) :
  0 <= k <= n ->
  exists patients_k patients_n,
    fst (create_patients k w1) = Ok patients_k
    /\ fst (create_patients n w2) = Ok patients_n
    /\ patients_k = take (Z.to_nat k) patients_n.
Proof.
  intros Hk. rewrite !create_patients_seeded.
  destruct (populate_run k (seeded 42)) as (patients_k & wk & Hrun_k & Hids & _).
  assert (Hlen : length patients_k = Z.to_nat k).
  { rewrite <- (length_map id), Hids. apply length_seqZ. }
  exists patients_k. unfold populate in *.
  replace n with (k + (n - k)) by lia. unfold py_range in *.
  rewrite seqZ_app by lia. rewrite for_each_app, (bind_run _ _ _ _ _ Hrun_k).
  destruct (for_each_run
              (fun (_ : list Z) patients => take (Z.to_nat k) patients = patients_k)
              (seqZ (0 + k) (n - k))
              (fun pid patients =>
                 patient <- create_patient pid ;; ret (patients ++ [patient]))
              patients_k) with (s := wk) as (patients_n & wn & Hrun_n & Htake).
  - rewrite <- Hlen. apply firstn_all.
  - intros pre pid post patients s _ Hpre.
    destruct (create_patient_run pid s) as (p & s' & Hrun & _).
    run_bind Hrun. unfold ret. eexists _, _. split; [reflexivity|].
    rewrite take_app_le; [exact Hpre|].
    apply (f_equal length) in Hpre. rewrite length_take, Hlen in Hpre. lia.
  - exists patients_n. rewrite Hrun_k, Hrun_n. simpl. auto.
Qed.

(** X5 -- Clipping only moves what is out of range.  Every stored reading
    of a generated month is the raw draw it comes from, or 50, or 350;
    and a raw draw within [50, 350] is stored as it was drawn. *)
Theorem clipping_saturates (p : Patient) (m_idx : Z) (md : MonthlyData) :
  generated p -> months p !! m_idx = Some md ->
  exists (w : World) (raw : list float) (s2 : np_state),
    month_made_at p m_idx w
    /\ np_random_normal_n (base_mean_at (pump_type p) w) 20 30
         (with_np w (snd (np_normal 0 10 (np_random_state w))))
       = (Ok raw, with_np w s2)
    /\ Forall2 (fun bg draw =>
                  (bg = draw \/ bg = 50%float \/ bg = 350%float)
                  /\ (PyFloat.within 50 350 draw = true -> bg = draw))
         (bg_values md) raw.
Proof.
  intros Hgen Hmd.
  destruct (generated_month p m_idx md Hgen Hmd)
    as (w & raw & s2 & mn & _ & Hmade & Hraw & _ & _ & _ & ->).
  exists w, raw, s2. split; [exact Hmade|]. split; [exact Hraw|].
  simpl. unfold Np.clip. apply Forall2_fmap_l, Forall_Forall2_diag, Forall_forall.
  intros draw _. split.
  - apply clip_one_cases.
  - now apply (clip_one_inside 50 350 draw false 6157265115545600 (-44)).
Qed.

End Extras.

(** *** The accessors and the advisor *)

Section AdvisorExtras.
Context {np : NumPy}.

(** X6 -- The two accessors agree.  [average_bg] returns the average that
    [metrics_for_month] returns first, raises when and what it raises, and
    neither changes the patient. *)
Theorem average_bg_agrees (p : Patient) (month_index : Z) :
  fst (average_bg month_index p)
  = match fst (metrics_for_month month_index p) with
    | Ok (avg_bg, _, _) => Ok avg_bg
    | Raise e => Raise e
    end
  /\ snd (average_bg month_index p) = p
  /\ snd (metrics_for_month month_index p) = p.
Proof.
  unfold average_bg, metrics_for_month, bind, get, lift, dict_getitem, ret.
  now destruct (months p !! month_index).
Qed.

(** X7 -- A month that was stored is the month that is read.  After
    [patient.months[m_idx] = md], [metrics_for_month m_idx] returns the
    mean of [md]'s readings with [md]'s basal and bolus scalars, and the
    metrics of every other month are what they were. *)
Theorem stored_month_is_read (p : Patient) (m_idx : Z) (md : MonthlyData) :
  fst (metrics_for_month m_idx (months_setitem p m_idx md))
  = Ok (np_mean (bg_values md), basal_units md, bolus_units md)
  /\ forall other, other <> m_idx ->
       fst (metrics_for_month other (months_setitem p m_idx md))
       = fst (metrics_for_month other p).
Proof.
  unfold metrics_for_month, bind, get, lift, dict_getitem, ret, months_setitem.
  simpl. split.
  - now rewrite lookup_insert_eq.
  - intros other Hother. rewrite lookup_insert_ne by congruence.
    now destruct (months p !! other).
Qed.

(** X8 -- An average that is not a number counts as on target.  When the
    mean of a month's readings is a NaN, as the mean of no readings is,
    [recommend_adjustment] returns the within-target recommendation. *)
Theorem nan_average_is_within_target (p : Patient) (month_index : Z) (md : MonthlyData) :
  months p !! month_index = Some md ->
  is_nan (np_mean (bg_values md)) = true ->
  fst (recommend_adjustment p month_index) = Ok within_target.
Proof.
  intros Hmd Hnan. rewrite (recommend_adjustment_found p month_index md Hmd).
  unfold PyFloat.gt, PyFloat.lt.
  destruct (ltb_nan _ 180 Hnan) as [-> _]. destruct (ltb_nan _ 80 Hnan) as [_ ->].
  reflexivity.
Qed.

End AdvisorExtras.

(** *** The page *)

Lemma head_filter_first {A} (P : A -> Prop) `{!forall x, Decision (P x)}
    (xs rest : list A) (x : A) :
  filter P xs = x :: rest ->
  exists i, xs !! i = Some x /\ P x
            /\ forall j y, (j < i)%nat -> xs !! j = Some y -> ~ P y.
Proof.
  induction xs as [|a xs IH]; [discriminate|]. rewrite filter_cons.
  destruct (decide (P a)) as [Ha|Ha]; intros Hfilter.
  - injection Hfilter as -> _. exists 0%nat. split; [reflexivity|].
    split; [exact Ha|]. intros j y Hj. lia.
  - destruct (IH Hfilter) as (i & Hi & Hx & Hbefore). exists (S i).
    split; [exact Hi|]. split; [exact Hx|].
    intros [|j] y Hj Hy; [now injection Hy as <-|].
    apply (Hbefore j y); [lia|exact Hy].
Qed.

(** Run the display calls and the calls whose result is known. *)
Ltac ui_run :=
  cbv beta iota zeta delta [ui_bind ui_ret ui_raise render in_interpreter
                            sidebar_selectbox sidebar_slider next of_result
                            on_object];
  cbn [interpreter rendered fst snd].

Section PageFacts.
Context {rnd : PyRandom} {np : NumPy} {st : Streamlit} {fmt : PyFormat}.

(** In a cohort the generator returned, the patient in place [i] has
    number [i]. *)
Lemma cohort_numbered (num_patients : Z) (w : World) (patients : list Patient)
    (i : nat) (p : Patient) :
  fst (create_patients num_patients w) = Ok patients ->
  patients !! i = Some p -> id p = Z.of_nat i.
Proof.
  intros Hrun Hp.
  destruct (create_patients_run num_patients w) as (patients' & w' & Hrun' & Hids & _).
  rewrite Hrun' in Hrun. injection Hrun as ->.
  assert (Hi : map id patients !! i = Some (id p)) by (now rewrite list_lookup_fmap, Hp).
  rewrite Hids in Hi. unfold py_range in Hi. apply lookup_seqZ in Hi. lia.
Qed.

Lemma metrics_for_month_found (p : Patient) (month_index : Z) (md : MonthlyData) :
  months p !! month_index = Some md ->
  metrics_for_month month_index p
  = (Ok (np_mean (bg_values md), basal_units md, bolus_units md), p).
Proof.
  intros Hmd. unfold metrics_for_month, bind, get, lift, dict_getitem.
  now rewrite Hmd.
Qed.

(** The selection [next(p for p in patients if p.name == selected_name)]. *)
Lemma selection_found (patients : list Patient) (choice : string) :
  choice ∈ map name patients ->
  exists p rest i,
    filter (fun p => name_is (Some choice) p = true) patients = p :: rest
    /\ patients !! i = Some p /\ name p = choice
    /\ forall j q, patients !! j = Some q -> name q = choice -> (i <= j)%nat.
Proof.
  intros (q & Hq & Hin)%list_elem_of_fmap.
  destruct (filter (fun p => name_is (Some choice) p = true) patients)
    as [|p rest] eqn:Hfilter.
  - exfalso. apply (filter_nil_not_elem_of _ _ q Hfilter); [|exact Hin].
    simpl. apply String.eqb_eq. now symmetry.
  - destruct (head_filter_first _ _ _ _ Hfilter) as (i & Hi & Hp & Hfirst).
    exists p, rest, i. split; [reflexivity|]. split; [exact Hi|].
    simpl in Hp. apply String.eqb_eq in Hp. split; [exact Hp|].
    intros j q' Hq' Hname. destruct (decide (i <= j)%nat) as [|Hlt]; [assumption|].
    exfalso. apply (Hfirst j q' ltac:(lia) Hq'). simpl. now apply String.eqb_eq.
Qed.

(** X9 -- The page is whole and of one piece.  Whatever the user chose in
    the two widgets and whatever state the interpreter is in, [main]
    returns without an exception, and what it renders is the page of one
    patient and one month: the patient is a patient of the cohort of ten
    who carries the chosen name, the month is the slider's, between 0 and
    11, and the month's name, chart of thirty days, doses, metrics, note
    and recommendation are all those of that patient's record for that
    month. *)
Theorem main_renders_one_month (s : Session) :
  exists (patients : list Patient) (p : Patient) (md : MonthlyData)
         (month_name rec : string),
    let m_idx := st_slider "Month" 0 11 0 in
    fst (create_patients 10 (interpreter s)) = Ok patients
    /\ p ∈ patients
    /\ st_selectbox "Select patient" (map name patients) = Some (name p)
    /\ 0 <= m_idx <= 11
    /\ months p !! m_idx = Some md
    /\ length (bg_values md) = 30%nat
    /\ _format_month m_idx = Ok month_name
    /\ fst (recommend_adjustment p m_idx) = Ok rec
    /\ fst (main s) = Returned tt
    /\ rendered (snd (main s))
       = rendered s ++ page_of patients p m_idx month_name md rec.
Proof.
  destruct (create_patients_run 10 (interpreter s))
    as (patients & w' & Hrun & Hids & Hall).
  assert (Hlen : length patients = 10%nat).
  { rewrite <- (length_map id), Hids. reflexivity. }
  pose proof (st_selectbox_option "Select patient" (map name patients)) as Hbox.
  destruct (st_selectbox "Select patient" (map name patients)) as [choice|] eqn:Hchoice;
    [|destruct patients; discriminate].
  destruct (selection_found patients choice Hbox)
    as (p & rest & i & Hfilter & Hp & Hname & _).
  assert (Hin : p ∈ patients) by (apply list_elem_of_lookup; eauto).
  assert (Hgen : generated p).
  { exists 10, (interpreter s), patients. now rewrite Hrun. }
  pose proof (st_slider_range "Month" 0 11 0 ltac:(lia)) as Hm.
  set (m_idx := st_slider "Month" 0 11 0) in *.
  destruct (generated_made_by_loop p Hgen) as [_ [_ Hmade]].
  destruct (Hmade m_idx ltac:(lia)) as (wm & md & Hmd & _).
  assert (Hdays : length (bg_values md) = 30%nat).
  { destruct (generated_month p m_idx md Hgen Hmd)
      as (w0 & raw & s2 & mn & _ & _ & _ & Hraw & _ & _ & ->).
    simpl. now rewrite FloatFacts.clip_length. }
  destruct (list_getitem_inside format_month_names m_idx) as (month_name & Hmonth & _).
  { change (length format_month_names) with 12%nat. lia. }
  fold (_format_month m_idx) in Hmonth.
  pose proof (recommend_adjustment_found p m_idx md Hmd) as Hrec.
  exists patients, p, md, month_name. eexists. cbv zeta.
  rewrite Hrun, Hrec. simpl.
  repeat (split; [first [reflexivity | assumption | lia | congruence]|]).
  unfold main. ui_run. rewrite Hrun. ui_run.
  rewrite Hchoice, Hfilter. ui_run.
  fold m_idx. rewrite Hmonth. ui_run.
  rewrite (metrics_for_month_found p m_idx md Hmd). ui_run.
  unfold dict_getitem. rewrite Hmd. ui_run.
  rewrite Hrec. ui_run.
  split; [reflexivity|]. unfold page_of. now rewrite <- !app_assoc.
Qed.

(** X10 -- Of two patients with one name the first is shown.  On a cohort
    the generator returned, [next(p for p in patients if p.name ==
    selected_name)] yields, for a name some patient carries, the patient
    with the lowest number among those who carry it, so a later patient
    of the same name is out of reach; for a name no patient carries, and
    for no selection at all, it raises [StopIteration]. *)
Theorem selection_takes_the_first_homonym
    (num_patients : Z) (w : World) (patients : list Patient)
    (selected_name : option string) (s : Session) :
  fst (create_patients num_patients w) = Ok patients ->
  match selected_name with
  | Some choice =>
    (choice ∈ map name patients ->
       exists p, next (filter (fun p => name_is selected_name p = true) patients) s
                 = (Returned p, s)
                 /\ p ∈ patients /\ name p = choice
                 /\ forall q, q ∈ patients -> name q = choice -> id p <= id q)
    /\ (choice ∉ map name patients ->
          next (filter (fun p => name_is selected_name p = true) patients) s
          = (Uncaught StopIteration, s))
  | None =>
    next (filter (fun p => name_is selected_name p = true) patients) s
    = (Uncaught StopIteration, s)
  end.
Proof.
  intros Hrun. destruct selected_name as [choice|].
  - split.
    + intros Hchoice.
      destruct (selection_found patients choice Hchoice)
        as (p & rest & i & Hfilter & Hp & Hname & Hfirst).
      exists p. rewrite Hfilter. split; [reflexivity|].
      split; [apply list_elem_of_lookup; eauto|]. split; [exact Hname|].
      intros q (j & Hq)%list_elem_of_lookup Hq_name.
      rewrite (cohort_numbered _ _ _ _ _ Hrun Hp), (cohort_numbered _ _ _ _ _ Hrun Hq).
      specialize (Hfirst j q Hq Hq_name). lia.
    + intros Hchoice.
      destruct (filter _ patients) as [|p rest] eqn:Hfilter; [reflexivity|].
      exfalso. apply Hchoice.
      assert (Hp : p ∈ filter (fun p => name_is (Some choice) p = true) patients)
        by (rewrite Hfilter; apply list_elem_of_here).
      apply list_elem_of_filter in Hp as [Hname%String.eqb_eq Hin].
      apply list_elem_of_fmap. exists p. split; [now symmetry|exact Hin].
  - destruct (filter _ patients) as [|p rest] eqn:Hfilter; [reflexivity|].
    assert (Hp : p ∈ filter (fun p => name_is None p = true) patients)
      by (rewrite Hfilter; apply list_elem_of_here).
    now apply list_elem_of_filter in Hp as [Hname _].
Qed.

(** X11 -- A rerun shows the same page.  Streamlit runs the script again
    at every interaction; with the same widget values, a run made in any
    interpreter state ends as any other: the same outcome, the same
    display calls, the same generator states left behind. *)
Theorem rerun_shows_the_same (w1 w2 : World) (before : list event) :
  main {| interpreter := w1; rendered := before |}
  = main {| interpreter := w2; rendered := before |}.
Proof.
  unfold main. ui_run.
  now rewrite (create_patients_seeded 10 w1), (create_patients_seeded 10 w2).
Qed.

(** X12 -- A negative month index has a name and no data.  For an index
    from -12 to -1, [_format_month] returns the name of the month twelve
    places up, while [metrics_for_month] and [recommend_adjustment] on a
    generated patient raise [KeyError]: the dict of months does not count
    from the end. *)
Theorem negative_index_is_named_not_measured (p : Patient) (index : Z) :
  generated p -> -12 <= index <= -1 ->
  (exists month_name, _format_month index = Ok month_name
                      /\ _format_month (index + 12) = Ok month_name)
  /\ metrics_for_month index p = (Raise (KeyError index), p)
  /\ recommend_adjustment p index = (Raise (KeyError index), p).
Proof.
  intros [_ [Hdom _]]%generated_made_by_loop Hindex.
  assert (Hnone : months p !! index = None).
  { destruct (months p !! index) as [md|] eqn:Hmd; [|reflexivity].
    assert (0 <= index < 12) by (apply Hdom; eauto). lia. }
  split; [|split].
  - destruct (list_getitem_inside format_month_names (index + 12)) as (mn & Hmn & _).
    { change (length format_month_names) with 12%nat. lia. }
    exists mn. split; [|exact Hmn]. unfold _format_month.
    rewrite (list_getitem_wraps format_month_names index); [exact Hmn|].
    change (length format_month_names) with 12%nat. lia.
  - unfold metrics_for_month, bind, get, lift, dict_getitem. now rewrite Hnone.
  - now apply recommend_adjustment_missing.
Qed.

End PageFacts.

(** ** On the reference implementation *)

#[local] Existing Instance Reference.random.
#[local] Existing Instance Reference.numpy.


(** *** The program at work *)

Example clip_examples :
  Np.clip [30; 400; 123.5; infinity; neg_infinity]%float 50 350
  = [50; 350; 123.5; 350; 50]%float.
Proof. reflexivity. Qed.

Example clip_keeps_nan : is_nan (Np.clip_one 50 350 nan) = true.
Proof. reflexivity. Qed.

Example month_names_index :
  list_getitem month_names 0 = Ok "January"
  /\ list_getitem month_names (-1) = Ok "December"
  /\ list_getitem month_names 12 = Raise IndexError.
Proof. repeat split. Qed.

Example choice_from_nothing :
  fst (random_choice (@nil string) Reference.fresh) = Raise IndexError.
Proof. reflexivity. Qed.

(** A January month with base mean 160 and monthly mean 90: rule 1 wins
    over rule 2's test; in April the same numbers give the exercise
    note; the thresholds themselves are excluded. *)
Example narrative_rule_examples :
  narrative_rule 0 160 90 = Dawn
  /\ narrative_rule 3 160 90 = Exercise
  /\ narrative_rule 9 100 171 = Illness
  /\ narrative_rule 9 100 170 = Routine
  /\ narrative_rule 1 150 120 = Routine.
Proof. repeat split. Qed.

Example reference_cohort :
  map (fun p => (id p, name p, pump_type p)) Reference.cohort
  = [(0, "Casey Kim", "Medtronic 780G"); (1, "Casey Hernandez", "Tandem t:slim X2")].
Proof. vm_compute. reflexivity. Qed.

(** The loops alone follow the seed; [create_patients] does not. *)
Example loops_follow_the_seed :
  (name <$> (Reference.cohort_of (fst (populate 2 (seeded 7)))))
  = ["Morgan Hernandez"; "Morgan Smith"]
  /\ (name <$> (Reference.cohort_of (fst (create_patients 2 (seeded 7)))))
     = ["Casey Kim"; "Casey Hernandez"].
Proof. split; vm_compute; reflexivity. Qed.

Example no_patients :
  fst (create_patients 0 Reference.fresh) = Ok []
  /\ fst (create_patients (-3) Reference.fresh) = Ok [].
Proof. split; vm_compute; reflexivity. Qed.

Example advice_examples :
  fst (recommend_adjustment (Reference.flat_patient 200) 0) = Ok above_target
  /\ fst (recommend_adjustment (Reference.flat_patient 70) 0) = Ok below_target
  /\ fst (recommend_adjustment (Reference.flat_patient 130) 0) = Ok within_target
  /\ fst (recommend_adjustment (Reference.flat_patient 180) 0) = Ok within_target
  /\ fst (recommend_adjustment (Reference.flat_patient 80) 0) = Ok within_target
  /\ fst (recommend_adjustment (Reference.flat_patient 130) 1) = Raise (KeyError 1).
Proof. repeat split; vm_compute; reflexivity. Qed.

(** *** The claims *)

Lemma reference_cohort_run :
  fst (create_patients 2 Reference.fresh) = Ok Reference.cohort.
Proof. vm_compute. reflexivity. Qed.

Lemma reference_casey_generated : generated Reference.casey.
Proof.
  exists 2, Reference.fresh, Reference.cohort. split; [exact reference_cohort_run|].
  apply list_elem_of_lookup. exists 0%nat. vm_compute. reflexivity.
Qed.

Lemma reference_casey_month (m_idx : Z) :
  0 <= m_idx <= 11 ->
  months Reference.casey !! m_idx = Some (Reference.month_of Reference.casey m_idx).
Proof.
  intros Hm.
  assert (Hcases : m_idx = 0 \/ m_idx = 1 \/ m_idx = 2 \/ m_idx = 3
                   \/ m_idx = 4 \/ m_idx = 5 \/ m_idx = 6 \/ m_idx = 7
                   \/ m_idx = 8 \/ m_idx = 9 \/ m_idx = 10 \/ m_idx = 11) by lia.
  repeat (destruct Hcases as [->|Hcases]; [vm_compute; reflexivity|]).
  subst m_idx. vm_compute. reflexivity.
Qed.

(** Two runs of the reference generator, one from a fresh process and one
    from a process that has drawn numbers before. *)
Lemma create_patients_deterministic_witness :
  exists patients,
    fst (create_patients 2 Reference.fresh) = Ok patients
    /\ fst (create_patients 2 Reference.used) = Ok patients.
Proof.
  exact (create_patients_deterministic 2 Reference.fresh Reference.used).
Defined.

(** Casey's February, and a January generated around 160. *)
Lemma narrative_priority_chain_witness :
  (exists (w : Reference.World) (month_name : string),
      month_made_at Reference.casey 1 w
      /\ list_getitem month_names 1 = Ok month_name
      /\ notes (Reference.month_of Reference.casey 1)
         = narrative_text
             (narrative_rule 1 (base_mean_at (pump_type Reference.casey) w)
                (np_mean (bg_values (Reference.month_of Reference.casey 1))))
             month_name)
  /\ notes Reference.high_january = dawn_note "January".
Proof.
  split.
  - apply (proj1 narrative_priority_chain
             Reference.casey 1 (Reference.month_of Reference.casey 1)).
    + exact reference_casey_generated.
    + apply reference_casey_month. lia.
  - apply (proj2 narrative_priority_chain
             "Omnipod" Reference.high_draw Reference.high_january).
    + vm_compute. reflexivity.
    + vm_compute. reflexivity.
Defined.

(** Thirty readings of 200: the above-target recommendation. *)
Lemma recommend_adjustment_classifies_witness :
  fst (recommend_adjustment (Reference.flat_patient 200) 0) = Ok above_target.
Proof.
  pose proof (recommend_adjustment_classifies
                (Reference.flat_patient 200) 0 (Reference.flat_month 200 20 20 ""))
    as Hclaim.
  cbv zeta in Hclaim.
  destruct Hclaim as (_ & _ & _ & Habove & _).
  - vm_compute. reflexivity.
  - apply Habove. vm_compute. reflexivity.
Defined.

(** The reference cohort of two has the shape claimed. *)
Lemma cohort_shape_witness :
  exists patients,
    fst (create_patients 2 Reference.fresh) = Ok patients
    /\ forall p, p ∈ patients ->
         size (months p) = 12%nat
         /\ (forall m_idx, is_Some (months p !! m_idx) <-> 0 <= m_idx <= 11)
         /\ (forall m_idx md, months p !! m_idx = Some md ->
               length (bg_values md) = 30%nat).
Proof. exact (cohort_shape 2 Reference.fresh). Defined.

(** Casey's September, three readings of which were clipped up to 50. *)
Lemma readings_within_50_350_witness :
  Forall (fun bg => PyFloat.within 50 350 bg = true)
    (bg_values (Reference.month_of Reference.casey 8)).
Proof.
  apply (readings_within_50_350 Reference.casey 8).
  - exact reference_casey_generated.
  - apply reference_casey_month. lia.
Defined.

Lemma doses_within_ranges_witness :
  PyFloat.within 18 40 (basal_units (Reference.month_of Reference.casey 8)) = true
  /\ PyFloat.within 15 35 (bolus_units (Reference.month_of Reference.casey 8)) = true.
Proof.
  apply (doses_within_ranges Reference.casey 8).
  - exact reference_casey_generated.
  - apply reference_casey_month. lia.
Defined.

(** December is advised on; a thirteenth month and a month before January
    are refused; and Casey is the same afterwards. *)
Lemma recommend_adjustment_total_witness :
  (exists advice, recommend_adjustment Reference.casey 11 = (Ok advice, Reference.casey))
  /\ recommend_adjustment Reference.casey 12 = (Raise (KeyError 12), Reference.casey)
  /\ recommend_adjustment Reference.casey (-1) = (Raise (KeyError (-1)), Reference.casey).
Proof.
  split; [|split].
  - apply (recommend_adjustment_total Reference.casey 11 reference_casey_generated). lia.
  - apply (recommend_adjustment_total Reference.casey 12 reference_casey_generated). lia.
  - apply (recommend_adjustment_total Reference.casey (-1) reference_casey_generated). lia.
Defined.

(** The draws behind Casey's January. *)
Lemma sampling_procedure_witness :
  exists (w : Reference.World) (draw : float) (raw : list float)
         (s1 s2 s3 s4 : Z),
    month_made_at Reference.casey 0 w
    /\ Reference.normal 0 10 (np_random_state w) = (draw, s1)
    /\ np_random_normal_n (140 + draw - 5)%float 20 30 (with_np w s1)
       = (Ok raw, with_np w s2)
    /\ length raw = 30%nat
    /\ bg_values (Reference.month_of Reference.casey 0)
       = map (Np.clip_one 50 350) raw
    /\ Reference.uniform 18 40 s2
       = (basal_units (Reference.month_of Reference.casey 0), s3)
    /\ Reference.uniform 15 35 s3
       = (bolus_units (Reference.month_of Reference.casey 0), s4).
Proof.
  pose proof (proj2 sampling_procedure Reference.casey 0
                (Reference.month_of Reference.casey 0) reference_casey_generated
                (reference_casey_month 0 ltac:(lia))) as Hclaim.
  cbv zeta in Hclaim.
  replace (pump_type Reference.casey =? "Omnipod")%string with false in Hclaim
    by (vm_compute; reflexivity).
  exact Hclaim.
Defined.

(** A fresh process and a used one get the same cohort and are left in the
    same state. *)
Lemma seed_is_fixed_witness :
  create_patients 2 Reference.fresh = create_patients 2 Reference.used.
Proof. exact (proj2 (seed_is_fixed 2) Reference.fresh Reference.used). Defined.

(** Two patients with nothing in common but thirty readings of 70 in
    month 0. *)
Lemma advice_depends_on_readings_only_witness :
  fst (recommend_adjustment (Reference.flat_patient 70) 0)
  = fst (recommend_adjustment (Reference.other_patient 70) 0).
Proof.
  apply (advice_depends_on_readings_only
           (Reference.flat_patient 70) (Reference.other_patient 70) 0
           (Reference.flat_month 70 20 20 "")
           (Reference.flat_month 70 38.5 16 "Routine")).
  - vm_compute. reflexivity.
  - vm_compute. reflexivity.
  - reflexivity.
Defined.

(** *** Beyond the claims *)

#[local] Existing Instance ReferencePage.python.

Example format_1f_examples :
  map ReferencePage.format_1f [172.25; 0.25; 0.75; 18; -0.5; nan]%float
  = ["172.2"; "0.2"; "0.8"; "18.0"; "-0.5"; "nan"].
Proof. vm_compute. reflexivity. Qed.

(** The name of December is reached from both ends of the table, and
    nothing lies past it. *)
Lemma format_month_domain_witness :
  (exists month_name, _format_month 11 = Ok month_name
                      /\ format_month_names !! Z.to_nat 11 = Some month_name)
  /\ _format_month (-1) = _format_month (-1 + 12)
  /\ _format_month 12 = Raise IndexError.
Proof.
  split; [|split].
  - apply (format_month_domain 11). lia.
  - apply (format_month_domain (-1)). lia.
  - apply (format_month_domain 12). lia.
Defined.

(** Casey's March carries the routine note. *)
Lemma note_names_its_month_witness :
  exists month_name,
    _format_month 2 = Ok month_name
    /\ notes (Reference.month_of Reference.casey 2) = routine_note month_name.
Proof.
  destruct (note_names_its_month Reference.casey 2
              (Reference.month_of Reference.casey 2) reference_casey_generated
              (reference_casey_month 2 ltac:(lia)))
    as (month_name & Hname & _ & _ & _ & _ & Hroutine).
  exists month_name. split; [exact Hname|]. apply Hroutine. lia.
Defined.

Lemma patient_name_and_pump_witness :
  (exists first last,
      first ∈ first_names /\ last ∈ last_names
      /\ name Reference.casey = first +:+ " " +:+ last)
  /\ pump_type Reference.casey ∈ pump_choices.
Proof. exact (patient_name_and_pump Reference.casey reference_casey_generated). Defined.

(** The cohort of one, asked for in a used process, begins the cohort of
    two of a fresh one. *)
Lemma smaller_cohort_is_prefix_witness :
  exists patients_1 patients_2,
    fst (create_patients 1 Reference.used) = Ok patients_1
    /\ fst (create_patients 2 Reference.fresh) = Ok patients_2
    /\ patients_1 = take (Z.to_nat 1) patients_2.
Proof.
  apply (smaller_cohort_is_prefix 1 2 Reference.used Reference.fresh). lia.
Defined.

(** Casey's September, where three draws fell below 50. *)
Lemma clipping_saturates_witness :
  exists (w : Reference.World) (raw : list float) (s2 : Z),
    month_made_at Reference.casey 8 w
    /\ np_random_normal_n (base_mean_at (pump_type Reference.casey) w) 20 30
         (with_np w (snd (np_normal 0 10 (np_random_state w))))
       = (Ok raw, with_np w s2)
    /\ Forall2 (fun bg draw =>
                  (bg = draw \/ bg = 50%float \/ bg = 350%float)
                  /\ (PyFloat.within 50 350 draw = true -> bg = draw))
         (bg_values (Reference.month_of Reference.casey 8)) raw.
Proof.
  exact (clipping_saturates Reference.casey 8 (Reference.month_of Reference.casey 8)
           reference_casey_generated (reference_casey_month 8 ltac:(lia))).
Defined.

Lemma average_bg_agrees_witness :
  fst (average_bg 0 (Reference.flat_patient 130))
  = match fst (metrics_for_month 0 (Reference.flat_patient 130)) with
    | Ok (avg_bg, _, _) => Ok avg_bg
    | Raise e => Raise e
    end
  /\ snd (average_bg 0 (Reference.flat_patient 130)) = Reference.flat_patient 130
  /\ snd (metrics_for_month 0 (Reference.flat_patient 130)) = Reference.flat_patient 130.
Proof. exact (average_bg_agrees (Reference.flat_patient 130) 0). Defined.

Example accessors_on_a_flat_month :
  fst (average_bg 0 (Reference.flat_patient 130)) = Ok 130%float
  /\ fst (metrics_for_month 0 (Reference.flat_patient 130)) = Ok (130, 20, 20)%float
  /\ fst (average_bg 5 (Reference.flat_patient 130)) = Raise (KeyError 5).
Proof. repeat split; vm_compute; reflexivity. Qed.

Lemma stored_month_is_read_witness :
  fst (metrics_for_month 3
         (months_setitem (Reference.flat_patient 130) 3
            (Reference.flat_month 90 25 30 "")))
  = Ok (np_mean (bg_values (Reference.flat_month 90 25 30 "")), 25, 30)%float
  /\ forall other, other <> 3 ->
       fst (metrics_for_month other
              (months_setitem (Reference.flat_patient 130) 3
                 (Reference.flat_month 90 25 30 "")))
       = fst (metrics_for_month other (Reference.flat_patient 130)).
Proof.
  exact (stored_month_is_read (Reference.flat_patient 130) 3
           (Reference.flat_month 90 25 30 "")).
Defined.

(** A month without readings: the reference mean of nothing is 0/0. *)
Lemma nan_average_is_within_target_witness :
  fst (recommend_adjustment ReferencePage.unread_patient 0) = Ok within_target.
Proof.
  apply (nan_average_is_within_target ReferencePage.unread_patient 0 Reference.no_month).
  - vm_compute. reflexivity.
  - vm_compute. reflexivity.
Defined.

(** A user who picks the second patient and drags the slider to
    February. *)
Lemma main_renders_one_month_witness :
  exists (patients : list Patient) (p : Patient) (md : MonthlyData)
         (month_name rec : string),
    fst (create_patients 10 (interpreter ReferencePage.start)) = Ok patients
    /\ p ∈ patients
    /\ ReferencePage.selectbox 1 "Select patient" (map name patients) = Some (name p)
    /\ 0 <= ReferencePage.slider 1 "Month" 0 11 0 <= 11
    /\ months p !! ReferencePage.slider 1 "Month" 0 11 0 = Some md
    /\ length (bg_values md) = 30%nat
    /\ _format_month (ReferencePage.slider 1 "Month" 0 11 0) = Ok month_name
    /\ fst (recommend_adjustment p (ReferencePage.slider 1 "Month" 0 11 0)) = Ok rec
    /\ fst (@main _ _ (ReferencePage.user 1 1) _ ReferencePage.start) = Returned tt
    /\ rendered (snd (@main _ _ (ReferencePage.user 1 1) _ ReferencePage.start))
       = rendered ReferencePage.start
         ++ page_of patients p (ReferencePage.slider 1 "Month" 0 11 0)
              month_name md rec.
Proof.
  exact (@main_renders_one_month _ _ (ReferencePage.user 1 1) _ ReferencePage.start).
Defined.

Example page_of_the_second_patient_in_february :
  let page := rendered (snd (@main _ _ (ReferencePage.user 1 1) _ ReferencePage.start)) in
  page !! 5%nat = Some (Subheader "Patient profile: Casey Hernandez")
  /\ page !! 7%nat = Some (Markdown "### February")
  /\ page !! 14%nat = Some (InColumn 3 (Metric "Avg BG (mg/dL)" "172.3"))
  /\ page !! 18%nat = Some (Write (dawn_note "February"))
  /\ page !! 20%nat = Some (Write within_target)
  /\ length page = 21%nat.
Proof. vm_compute. repeat split. Qed.

(** In the reference cohort of twelve, patients 3 and 11 are both called
    Robin Patel. *)
Lemma selection_takes_the_first_homonym_witness :
  exists p,
    next (filter (fun p => name_is (Some "Robin Patel") p = true)
            (Reference.cohort_of (fst (create_patients 12 Reference.fresh))))
      ReferencePage.start
    = (Returned p, ReferencePage.start)
    /\ p ∈ Reference.cohort_of (fst (create_patients 12 Reference.fresh))
    /\ name p = "Robin Patel"
    /\ forall q,
         q ∈ Reference.cohort_of (fst (create_patients 12 Reference.fresh)) ->
         name q = "Robin Patel" -> id p <= id q.
Proof.
  assert (Hrun : fst (create_patients 12 Reference.fresh)
                 = Ok (Reference.cohort_of (fst (create_patients 12 Reference.fresh))))
    by (vm_compute; reflexivity).
  apply (selection_takes_the_first_homonym 12 Reference.fresh _
           (Some "Robin Patel") ReferencePage.start Hrun).
  apply list_elem_of_lookup. exists 3%nat. vm_compute. reflexivity.
Defined.

Example robin_patel_is_patient_3 :
  id <$> filter (fun p => name_is (Some "Robin Patel") p = true)
           (Reference.cohort_of (fst (create_patients 12 Reference.fresh)))
  = [3; 11].
Proof. vm_compute. reflexivity. Qed.

(** The same user in a fresh process and in a used one. *)
Lemma rerun_shows_the_same_witness :
  @main _ _ (ReferencePage.user 1 1) _
    {| interpreter := Reference.fresh; rendered := [] |}
  = @main _ _ (ReferencePage.user 1 1) _
      {| interpreter := Reference.used; rendered := [] |}.
Proof.
  exact (@rerun_shows_the_same _ _ (ReferencePage.user 1 1) _
           Reference.fresh Reference.used []).
Defined.

(** Index -1 on Casey: December by name, and a [KeyError] for the data. *)
Lemma negative_index_is_named_not_measured_witness :
  (exists month_name, _format_month (-1) = Ok month_name
                      /\ _format_month (-1 + 12) = Ok month_name)
  /\ metrics_for_month (-1) Reference.casey = (Raise (KeyError (-1)), Reference.casey)
  /\ recommend_adjustment Reference.casey (-1)
     = (Raise (KeyError (-1)), Reference.casey).
Proof.
  apply (negative_index_is_named_not_measured Reference.casey (-1)
           reference_casey_generated).
  lia.
Defined.
